(** * Review auto-reply engine: response rules, validator and orchestrators

    Shallow embedding of the reply engine of the Google Play reviews
    dashboard:

    - [src/ai_response.py]   (module [AiResponse]): language detection, rule
      table, prompt builder, response validator, [generate_response];
    - [src/reviews.py]       (module [Reviews]): [reply_to_review] and the
      orchestrator [auto_reply_to_reviews] of the command-line tool;
    - [src/backend/ai_response.py] and [src/backend/reviews.py]
      (modules [BackendAiResponse], [BackendReviews]): the second copy of the
      detector, generator and orchestrator used by the web backend;
    - [src/auth.py] and [src/main.py] (modules [Auth], [Main]): the setup of
      the command-line tool and its [auto-reply] and [history] commands.

    Python values are modelled as follows.  A [str] is the list of its Unicode
    code points ([pystr]); [int] is [Z]; [None]-or-value is [option]; a raised
    exception is the [Raise] result of a small state-and-exception monad whose
    state records the calls made to the external collaborators. *)

From Stdlib Require Import ZArith NArith List Bool Lia.
From Stdlib Require Import Strings.String Strings.Ascii Numbers.DecimalString.
From Stdlib Require QArith.
From stdpp Require Import base option list gmap.

Local Open Scope N_scope.

(** ** Python strings *)

Module Py.

(** A Python [str]: a sequence of Unicode code points. [len] is [length]. *)
Definition pystr : Type := list N.

(** Decoding of a UTF-8 byte sequence, used only to write the literals of
    the source in readable form. *)
Fixpoint decode_utf8 (bs : list N) : pystr :=
  match bs with
  | [] => []
  | b0 :: t0 =>
    if b0 <? 0x80 then b0 :: decode_utf8 t0
    else
      match t0 with
      | [] => []
      | b1 :: t1 =>
        if b0 <? 0xE0 then ((b0 mod 0x20) * 0x40 + b1 mod 0x40) :: decode_utf8 t1
        else
          match t1 with
          | [] => []
          | b2 :: t2 =>
            if b0 <? 0xF0
            then ((b0 mod 0x10) * 0x1000 + (b1 mod 0x40) * 0x40 + b2 mod 0x40)
                   :: decode_utf8 t2
            else
              match t2 with
              | [] => []
              | b3 :: t3 =>
                ((b0 mod 0x08) * 0x40000 + (b1 mod 0x40) * 0x1000
                 + (b2 mod 0x40) * 0x40 + b3 mod 0x40) :: decode_utf8 t3
              end
          end
      end
  end.

(** The code points of a literal written in the source file. *)
Definition py (s : string) : pystr :=
  decode_utf8 (map N_of_ascii (list_ascii_of_string s)).

(** The double-quote character, which occurs inside the prompt templates. *)
Definition dquote : pystr := [0x22].

(** Line feed. *)
Definition nl : pystr := [0x0A].

(** [str(n)] and [f"{n}"] for an integer. *)
Definition str_of_int (n : Z) : pystr :=
  py (NilZero.string_of_int (Z.to_int n)).

(** [sep.join(items)]. *)
Fixpoint join (sep : pystr) (items : list pystr) : pystr :=
  match items with
  | [] => []
  | [x] => x
  | x :: rest => x ++ sep ++ join sep rest
  end.

(** [str.isspace] on one code point: the characters removed by
    [str.strip()] without argument. *)
Definition is_space (c : N) : bool :=
  ((0x09 <=? c) && (c <=? 0x0D))
  || ((0x1C <=? c) && (c <=? 0x20))
  || (c =? 0x85) || (c =? 0xA0) || (c =? 0x1680)
  || ((0x2000 <=? c) && (c <=? 0x200A))
  || (c =? 0x2028) || (c =? 0x2029) || (c =? 0x202F)
  || (c =? 0x205F) || (c =? 0x3000).

(** [s.lstrip()], [s.rstrip()], [s.strip()]. *)
Fixpoint lstrip (s : pystr) : pystr :=
  match s with
  | [] => []
  | c :: s' => if is_space c then lstrip s' else s
  end.

Definition rstrip (s : pystr) : pystr := rev (lstrip (rev s)).

Definition strip (s : pystr) : pystr := rstrip (lstrip s).

(** [s.startswith(w)]. *)
Fixpoint startswith (s w : pystr) {struct w} : bool :=
  match w, s with
  | [], _ => true
  | _ :: _, [] => false
  | c :: w', d :: s' => (c =? d) && startswith s' w'
  end.

(** [w in s] for strings: [w] occurs in [s] as a contiguous substring. *)
Fixpoint contains (s w : pystr) : bool :=
  startswith s w ||
  match s with
  | [] => false
  | _ :: s' => contains s' w
  end.

(** [c in s] for a single character [c]. *)
Definition has_char (s : pystr) (c : N) : bool := existsb (N.eqb c) s.

(** [s[:n]]. *)
Definition slice_to (n : nat) (s : pystr) : pystr := take n s.

(** Truth value of a string: [bool(s)], false only for the empty string. *)
Definition truthy (s : pystr) : bool :=
  match s with
  | [] => false
  | _ :: _ => true
  end.

(** [a == b] on strings. *)
Fixpoint eqb_str (a b : pystr) : bool :=
  match a, b with
  | [], [] => true
  | c :: a', d :: b' => (c =? d) && eqb_str a' b'
  | _, _ => false
  end.

(** [s.split()] without argument: the maximal runs of non-space characters.
    [cur] holds the current run, reversed. *)
Fixpoint split_from (cur : pystr) (s : pystr) : list pystr :=
  match s with
  | [] => match cur with [] => [] | _ :: _ => [rev cur] end
  | c :: s' =>
    if is_space c
    then match cur with
         | [] => split_from [] s'
         | _ :: _ => rev cur :: split_from [] s'
         end
    else split_from (c :: cur) s'
  end.

Definition split (s : pystr) : list pystr := split_from [] s.

(** What the program takes from its platform and this development does not
    write out: the lower-case mapping of the code points outside the blocks
    listed in [lower_cp] (Greek, Armenian, the Kelvin sign, ...), which is
    data of the Python runtime, and the rendering [str(e)] of an [HttpError]
    of the Google API client library, given its response and content. *)
Class Runtime : Type := {
  lower_rest : N -> list N;
  http_error_str : pystr -> pystr -> pystr
}.

Section CaseMapping.

Context `{Runtime}.

(** Lower-case mapping of one code point.  ASCII, Latin-1 Supplement,
    Latin Extended-A, the basic Cyrillic block and the (caseless) Arabic
    block are written out: every literal of the program lives there.
    U+0130 is the one code point of these blocks whose lower case is two
    code points. *)
Definition lower_cp (c : N) : list N :=
  if c <? 0x80 then
    if (0x41 <=? c) && (c <=? 0x5A) then [c + 0x20] else [c]
  else if c <? 0x100 then
    if (0xC0 <=? c) && (c <=? 0xDE) && negb (c =? 0xD7) then [c + 0x20] else [c]
  else if c <? 0x180 then
    if c =? 0x130 then [0x69; 0x307]
    else if c =? 0x178 then [0xFF]
    else if (c <? 0x138) || ((0x14A <=? c) && (c <? 0x178)) then
      if N.even c then [c + 1] else [c]
    else if ((0x139 <=? c) && (c <? 0x149)) || ((0x179 <=? c) && (c <? 0x17F)) then
      if N.odd c then [c + 1] else [c]
    else [c]
  else if (0x400 <=? c) && (c <? 0x410) then [c + 0x50]
  else if (0x410 <=? c) && (c <? 0x430) then [c + 0x20]
  else if (0x430 <=? c) && (c <? 0x460) then [c]
  else if (0x600 <=? c) && (c <? 0x700) then [c]
  else lower_rest c.

(** [s.lower()], code point by code point.  (Python additionally lowers a
    capital sigma to the final form at the end of a word; no literal of
    the program contains either form of sigma.) *)
Definition lower (s : pystr) : pystr := flat_map lower_cp s.

End CaseMapping.

End Py.


(** ** Effects: mutable state, exceptions and the external collaborators *)

Module Effects.
Import Py.

(** The exceptions the program distinguishes: [HttpError] of the Google API
    client (a subclass of [Exception]) and any other [Exception], the latter
    identified with its message [str(e)]. *)
Inductive exn : Type :=
| HttpError (resp content : pystr)
| Exception (msg : pystr).

(** [str(e)]. *)
Definition str_exn `{Runtime} (e : exn) : pystr :=
  match e with
  | HttpError resp content => http_error_str resp content
  | Exception msg => msg
  end.

(** Outcome of a call: a returned value or a raised exception. *)
Inductive result (A : Type) : Type :=
| Ok (a : A)
| Raise (e : exn).
Arguments Ok {A} a.
Arguments Raise {A} e.

(** The state threaded through a run: [clock] counts the calls made so far
    to the external collaborators (it indexes their answers, which may
    differ from call to call, and stands for [datetime.now()]);
    [reply_calls] is the trace of the (review id, text) pairs handed to the
    storefront's reply endpoint; [heap] holds the mutable attributes of the
    program's objects. *)
Record state (H : Type) : Type := mk_state {
  clock : nat;
  reply_calls : list (pystr * pystr);
  heap : H
}.
Arguments mk_state {H} _ _ _.
Arguments clock {H} _.
Arguments reply_calls {H} _.
Arguments heap {H} _.

(** Computations with state [state H] that return or raise.  A raised
    exception keeps the state reached: Python undoes nothing. *)
Definition M (H A : Type) : Type := state H -> result A * state H.

Definition ret {H A} (a : A) : M H A := fun s => (Ok a, s).

Definition raise {H A} (e : exn) : M H A := fun s => (Raise e, s).

Definition bind {H A B} (m : M H A) (k : A -> M H B) : M H B :=
  fun s =>
    match m s with
    | (Ok a, s') => k a s'
    | (Raise e, s') => (Raise e, s')
    end.

(** [try: body except Exception as e: handler(e)]. *)
Definition try_except {H A} (body : M H A) (handler : exn -> M H A) : M H A :=
  fun s =>
    match body s with
    | (Ok a, s') => (Ok a, s')
    | (Raise e, s') => handler e s'
    end.

(** One call to an external collaborator whose answer to the [n]-th call of
    the run is [answer n]. *)
Definition external {H A} (answer : nat -> result A) : M H A :=
  fun s => (answer (clock s), mk_state (S (clock s)) (reply_calls s) (heap s)).

(** [datetime.now().isoformat()]. *)
Definition now {H} : M H nat := fun s => (Ok (clock s), s).

(** Record a request sent to the storefront's reply endpoint. *)
Definition log_reply_call {H} (review_id text : pystr) : M H unit :=
  fun s => (Ok tt, mk_state (clock s) (reply_calls s ++ [(review_id, text)]) (heap s)).

(** In-place update of the objects' attributes. *)
Definition modify_heap {H} (f : H -> H) : M H unit :=
  fun s => (Ok tt, mk_state (clock s) (reply_calls s) (f (heap s))).

(** [for x in xs: acc = body(acc, x)]. *)
Fixpoint for_each {H A B} (body : B -> A -> M H B) (acc : B) (xs : list A) : M H B :=
  match xs with
  | [] => ret acc
  | x :: xs' => bind (body acc x) (fun acc' => for_each body acc' xs')
  end.

Declare Scope py_scope.
Delimit Scope py_scope with py_m.
Notation "'do' x <- m ; k" := (bind m (fun x => k))
  (at level 10, x name, m at level 100, k at level 200) : py_scope.

(** The generative model client: the outcome of [generate_content(prompt)]
    followed by [.text] at the [n]-th external call of the run, either the
    text of the response or the exception raised by the call or by reading
    the text. *)
Definition model : Type := nat -> pystr -> result pystr.

(** A review as [list_reviews] formats it; of its keys the engine reads
    [reviewId], [rating], [userComment] and [hasReply].  The rating is the
    integer [starRating] of the storefront. *)
Record review : Type := mk_review {
  reviewId : pystr;
  rating : Z;
  userComment : pystr;
  hasReply : bool
}.

(** The authenticated storefront service: [reviews().list(...).execute()]
    with the formatting of [list_reviews] applied, and
    [reviews().reply(...).execute()]. *)
Record service : Type := mk_service {
  reviews_list : nat -> Z -> result (list review);
  reviews_reply : nat -> pystr -> pystr -> result unit
}.

End Effects.

(** ** [src/ai_response.py] *)

Module AiResponse.
Import Py Effects.
Local Open Scope py_scope.

(** The language codes [detect_language] can return. *)
Inductive language : Type := En | Tr | Es | Fr | De | Ru | Id | Fa.

(** The literal returned for each language. *)
Definition code (l : language) : pystr :=
  match l with
  | En => py "en" | Tr => py "tr" | Es => py "es" | Fr => py "fr"
  | De => py "de" | Ru => py "ru" | Id => py "id" | Fa => py "fa"
  end.

(** The response policies named by [response_rules]. *)
Inductive rule : Type :=
| apologize_and_support
| neutral_improvement
| thank_and_engage.

(** [self.response_rules]. *)
Definition response_rules : gmap Z rule :=
  <[1%Z := apologize_and_support]>
  (<[2%Z := apologize_and_support]>
  (<[3%Z := neutral_improvement]>
  (<[4%Z := thank_and_engage]>
  (<[5%Z := thank_and_engage]> ∅)))).

(** [self.response_rules.get(rating, "neutral_improvement")]
    ([generate_response], line 196). *)
Definition select_rule (rating : Z) : rule :=
  default neutral_improvement (response_rules !! rating).

(** [self.forbidden_words]. *)
Definition forbidden_words : list pystr :=
  [ py "sorry"; py "apologize"; py "unfortunately"; py "regret";
    py "disappointed"; py "terrible"; py "awful"; py "hate"; py "worst";
    py "useless"; py "broken" ].

(** The keyword lists of [detect_language], as written in the source
    (duplicates included). *)
Definition turkish_words : list pystr :=
  [ py "çok"; py "güzel"; py "harika"; py "teşekkür"; py "sağol"; py "iyi"; py "kötü" ].
Definition spanish_words : list pystr :=
  [ py "muy"; py "bueno"; py "excelente"; py "gracias"; py "malo"; py "buena" ].
Definition french_words : list pystr :=
  [ py "très"; py "bon"; py "excellent"; py "merci"; py "mauvais"; py "bien" ].
Definition german_words : list pystr :=
  [ py "sehr"; py "gut"; py "ausgezeichnet"; py "danke"; py "schlecht"; py "toll" ].
Definition russian_words : list pystr :=
  [ py "очень"; py "хорошо"; py "отлично"; py "спасибо"; py "плохо"; py "классно" ].
Definition indonesian_words : list pystr :=
  [ py "sangat"; py "bagus"; py "bagus"; py "terima"; py "kasih"; py "buruk" ].
Definition persian_words : list pystr :=
  [ py "خیلی"; py "خوب"; py "عالی"; py "ممنون"; py "بد"; py "عالی" ].

(** [any(word in text for word in words)]. *)
Definition any_word_in (text : pystr) (words : list pystr) : bool :=
  existsb (contains text) words.

(** The FAQ entries and the knowledge base loaded from JSON.  A key that is
    absent from the file is [None]; it is read with [dict.get(key, default)]. *)
Record faq : Type := mk_faq { question : pystr; answer : pystr }.

Record kb : Type := mk_kb {
  app_name : option pystr;
  description : option pystr;
  features : option (list pystr);
  faqs : option (list faq);
  target_users : option pystr;
  support_contact : option pystr
}.

(** One entry of [self.reply_history], as [_log_reply] builds it. *)
Record log_entry : Type := mk_log_entry {
  timestamp : nat;
  log_review_id : pystr;
  log_review_text : pystr;
  log_rating : Z;
  log_language : language;
  original_ai_response : pystr;
  final_response : pystr;
  character_count : nat
}.

(** The generator object: [gemini_client] is [None] when the credential
    [GEMINI_API_KEY] is missing or the client library cannot be set up
    ([_init_gemini_client]).  Its mutable [reply_history] is the heap of the
    state. *)
Record AIResponseGenerator : Type := mk_generator {
  knowledge_base : kb;
  gemini_client : option model
}.

Definition history : Type := list log_entry.

Section WithRuntime.

Context `{Runtime}.

(** [detect_language] (lines 131-173). *)
Definition detect_language (text : pystr) : language :=
  let text_lower := lower text in
  if any_word_in text_lower turkish_words then Tr
  else if any_word_in text_lower spanish_words then Es
  else if any_word_in text_lower french_words then Fr
  else if any_word_in text_lower german_words then De
  else if any_word_in text_lower russian_words then Ru
  else if any_word_in text_lower indonesian_words then Id
  else if any_word_in text_lower persian_words then Fa
  else En.

(** [_validate_response] (lines 295-333).  The checks of lines 326-331
    only log a warning ([language_warning] below) and leave the result
    alone, so [language] does not influence the returned value. *)
Definition _validate_response (response : pystr) (language : language)
  : option pystr :=
  match response with
  | [] => None
  | _ :: _ =>
    let response :=
      if (350 <? length response)%nat
      then slice_to 347 response ++ py "..."
      else response in
    let response_lower := lower response in
    if existsb (contains response_lower) forbidden_words then None
    else if (length (strip response) <? 10)%nat then None
    else Some (strip response)
  end.

(** The warning logged by lines 326-331 for a response that reached them. *)
Definition language_warning (response : pystr) (language : language)
  : option pystr :=
  match language with
  | Tr =>
    if existsb (has_char response) (py "çğıöşüÇĞIİÖŞÜ") then None
    else Some (py "Response may not be in Turkish")
  | Ru =>
    if existsb (has_char response) (py "абвгдеёжзийклмнопрстуфхцчшщъыьэюя")
    then None
    else Some (py "Response may not be in Russian")
  | _ => None
  end.

End WithRuntime.

(** [_format_faqs] (lines 283-293). *)
Definition _format_faqs (self : AIResponseGenerator) : pystr :=
  match default [] (faqs (knowledge_base self)) with
  | [] => py "No FAQs available."
  | (_ :: _) as faqs =>
    join (nl ++ nl)
         (map (fun f => py "Q: " ++ question f ++ nl ++ py "A: " ++ answer f)
              (take 5 faqs))
  end.

(** [language_instructions.get(language, language_instructions['en'])]. *)
Definition language_instructions (l : language) : pystr :=
  match l with
  | Tr => py "Respond in Turkish. Be polite and professional."
  | Es => py "Respond in Spanish. Be polite and professional."
  | Fr => py "Respond in French. Be polite and professional."
  | De => py "Respond in German. Be polite and professional."
  | Ru => py "Respond in Russian. Be polite and professional."
  | Id => py "Respond in Indonesian. Be polite and professional."
  | Fa => py "Respond in Persian. Be polite and professional."
  | En => py "Respond in English. Be polite and professional."
  end.

(** [rule_instructions[rule]]. *)
Definition rule_instructions (self : AIResponseGenerator) (r : rule) : pystr :=
  match r with
  | apologize_and_support =>
    py "For low ratings (1-2 stars): Apologize sincerely, offer direct support, and ask for specific feedback. Mention our support contact: "
    ++ default (py "support@yourapp.com") (support_contact (knowledge_base self))
  | neutral_improvement =>
    py "For medium ratings (3 stars): Acknowledge the feedback neutrally, promise improvements, and encourage continued use."
  | thank_and_engage =>
    py "For high ratings (4-5 stars): Thank enthusiastically, encourage sharing, and invite them to explore more features."
  end.

(** [_build_prompt] (lines 227-281): the two f-strings, line by line. *)
Definition _build_prompt (self : AIResponseGenerator) (review_text : pystr)
    (rating : Z) (language : language) (rule : rule) : pystr :=
  let k := knowledge_base self in
  let kb_context :=
    join nl
      [ [];
        py "App Information:";
        py "- Name: " ++ default (py "Your App") (app_name k);
        py "- Description: " ++ default (py "A great mobile application") (description k);
        py "- Key Features: " ++ join (py ", ") (default [] (features k));
        py "- Target Users: " ++ default (py "General mobile users") (target_users k);
        [];
        py "FAQ Answers:";
        _format_faqs self;
        [] ] in
  join nl
    [ [];
      language_instructions language;
      [];
      rule_instructions self rule;
      [];
      kb_context;
      [];
      py "Review Details:";
      py "- Rating: " ++ str_of_int rating ++ py "/5 stars";
      py "- Review Text: " ++ dquote ++ review_text ++ dquote;
      [];
      py "Requirements:";
      py "- Maximum 350 characters";
      py "- Professional but friendly tone";
      py "- Use relevant app features if applicable";
      py "- Address specific concerns mentioned in the review";
      py "- Don't be robotic or generic";
      [];
      py "Generate a response:";
      [] ].

(** [_log_reply] (lines 335-352); writing the history file cannot raise
    ([_save_reply_history] catches everything). *)
Definition _log_reply (review_id review_text : pystr) (rating : Z)
    (original_response final_response : pystr) (language : language)
  : M history unit :=
  do t <- now ;
  modify_heap (fun h =>
    h ++ [ mk_log_entry t review_id review_text rating language
                        original_response final_response
                        (length final_response) ]).

Section WithRuntime.

Context `{Runtime}.

(** The text handed to [generate_content] by [generate_response]
    (lines 193-203): language, rule, prompt, and the fixed preamble. *)
Definition request (self : AIResponseGenerator) (review_text : pystr)
    (rating : Z) : pystr :=
  let language := detect_language review_text in
  let rule := select_rule rating in
  let prompt := _build_prompt self review_text rating language rule in
  py "You are a professional app developer responding to user reviews. Be helpful, friendly, and concise."
  ++ nl ++ nl ++ prompt.

(** [generate_response] (lines 175-225). *)
Definition generate_response (self : AIResponseGenerator)
    (review_text : pystr) (rating : Z) (review_id : pystr)
  : M history (option pystr) :=
  match gemini_client self with
  | None => ret None
  | Some client =>
    try_except
      (let language := detect_language review_text in
       do text <- external (fun n => client n (request self review_text rating)) ;
       let ai_response := strip text in
       match _validate_response ai_response language with
       | Some ((_ :: _) as validated_response) =>
         do _ <- _log_reply review_id review_text rating ai_response
                            validated_response language ;
         ret (Some validated_response)
       | _ => ret None
       end)
      (fun _ => ret None)
  end.

End WithRuntime.

End AiResponse.

(** ** [src/reviews.py] *)

Module Reviews.
Import Py Effects AiResponse.
Local Open Scope py_scope.

(** The handler object.  [__init__] sets
    [ai_generator = AIResponseGenerator() if enable_ai else None]. *)
Record GooglePlayReviews : Type := mk_handler {
  service_of : service;
  enable_ai : bool;
  ai_generator : option AIResponseGenerator
}.

(** [GooglePlayReviews(service, package_name, enable_ai)], where [generator]
    is the object [AIResponseGenerator()] builds in the current
    environment. *)
Definition new (svc : service) (enable : bool) (generator : AIResponseGenerator)
  : GooglePlayReviews :=
  mk_handler svc enable (if enable then Some generator else None).

(** One entry of [results["details"]]; [reason] and [response] are the
    optional keys. *)
Record detail : Type := mk_detail {
  review_id : pystr;
  status : pystr;
  reason : option pystr;
  response : option pystr
}.

(** The dictionary returned by [auto_reply_to_reviews].  The early return
    for an empty batch has no ["details"] key. *)
Record summary : Type := mk_results {
  processed : nat;
  successful : nat;
  failed : nat;
  skipped : nat;
  details : option (list detail)
}.

(** [results["details"].append(d)]. *)
Definition append_detail (d : detail) (r : summary) : summary :=
  mk_results (processed r) (successful r) (failed r) (skipped r)
             ((fun l => l ++ [d]) <$> details r).

(** [results["processed"] += 1] and its three siblings. *)
Definition incr_processed (r : summary) : summary :=
  mk_results (S (processed r)) (successful r) (failed r) (skipped r) (details r).
Definition incr_successful (r : summary) : summary :=
  mk_results (processed r) (S (successful r)) (failed r) (skipped r) (details r).
Definition incr_failed (r : summary) : summary :=
  mk_results (processed r) (successful r) (S (failed r)) (skipped r) (details r).
Definition incr_skipped (r : summary) : summary :=
  mk_results (processed r) (successful r) (failed r) (S (skipped r)) (details r).

Section WithRuntime.

Context `{Runtime}.

(** [list_reviews] (lines 32-108): the storefront call and the formatting
    of its answer are the service's [reviews_list]; what remains is the
    re-raising of its errors. *)
Definition list_reviews (self : GooglePlayReviews) (max_results : Z)
  : M history (list review) :=
  try_except
    (external (fun n => reviews_list (service_of self) n max_results))
    (fun e =>
       match e with
       | HttpError resp _ =>
         raise (HttpError resp (py "API request failed: " ++ str_exn e))
       | Exception _ =>
         raise (Exception (py "Unexpected error while fetching reviews: " ++ str_exn e))
       end).

(** [reply_to_review] (lines 110-150): returns [True] or raises. *)
Definition reply_to_review (self : GooglePlayReviews)
    (review_id reply_text : pystr) : M history bool :=
  try_except
    (do _ <- log_reply_call review_id reply_text ;
     do _ <- external (fun n => reviews_reply (service_of self) n review_id reply_text) ;
     ret true)
    (fun e =>
       match e with
       | HttpError resp _ =>
         raise (HttpError resp (py "API request failed: " ++ str_exn e))
       | Exception _ =>
         raise (Exception (py "Unexpected error while replying to review: " ++ str_exn e))
       end).

(** The body of the loop of [auto_reply_to_reviews] (lines 211-293) for
    one review; [results] is the dictionary as the previous iterations
    left it. *)
Definition process_review (self : GooglePlayReviews)
    (generator : AIResponseGenerator) (dry_run : bool)
    (results : summary) (review : review) : M history summary :=
  let results := incr_processed results in
  let review_id := reviewId review in
  let rating := rating review in
  let comment := userComment review in
  let has_reply := hasReply review in
  if has_reply then
    ret (append_detail
           (mk_detail review_id (py "skipped") (Some (py "already_has_reply")) None)
           (incr_skipped results))
  else if negb (truthy comment) || eqb_str (strip comment) (py "") then
    ret (append_detail
           (mk_detail review_id (py "skipped") (Some (py "no_comment")) None)
           (incr_skipped results))
  else
    try_except
      (do ai_response <- generate_response generator comment rating review_id ;
       match ai_response with
       | Some ((_ :: _) as ai_response) =>
         if dry_run then
           ret (append_detail
                  (mk_detail review_id (py "dry_run_success") None (Some ai_response))
                  (incr_successful results))
         else
           do success <- reply_to_review self review_id ai_response ;
           if success : bool then
             ret (append_detail
                    (mk_detail review_id (py "success") None (Some ai_response))
                    (incr_successful results))
           else
             ret (append_detail
                    (mk_detail review_id (py "failed") (Some (py "api_post_failed"))
                               (Some ai_response))
                    (incr_failed results))
       | _ =>
         ret (append_detail
                (mk_detail review_id (py "failed") (Some (py "ai_generation_failed")) None)
                (incr_failed results))
       end)
      (fun e =>
         ret (append_detail
                (mk_detail review_id (py "failed") (Some (str_exn e)) None)
                (incr_failed results))).

(** [auto_reply_to_reviews] (lines 180-304). *)
Definition auto_reply_to_reviews (self : GooglePlayReviews)
    (max_results : Z) (dry_run : bool) : M history summary :=
  match enable_ai self, ai_generator self with
  | true, Some generator =>
    try_except
      (do reviews <- list_reviews self max_results ;
       match reviews with
       | [] => ret (mk_results 0 0 0 0 None)
       | _ :: _ =>
         for_each (process_review self generator dry_run)
                  (mk_results 0 0 0 0 (Some [])) reviews
       end)
      (fun e =>
         raise (Exception (py "Unexpected error during auto-reply process: "
                           ++ str_exn e)))
  | _, _ => raise (Exception (py "AI is not enabled. Initialize with enable_ai=True"))
  end.

End WithRuntime.

End Reviews.

(** ** [src/backend/ai_response.py] *)

Module BackendAiResponse.
Import Py Effects.
Import AiResponse (language, En, Tr, Es, Fr, De, Ru, Id, Fa).
Local Open Scope py_scope.

(** One entry of the generator's [reply_history]. *)
Record entry : Type := mk_entry {
  entry_review_id : pystr;
  entry_review_text : pystr;
  entry_rating : Z;
  entry_language : language;
  entry_response : pystr;
  entry_timestamp : nat
}.

(** One entry of the handler's [reply_history] (backend [reply_to_review]). *)
Record posted_entry : Type := mk_posted_entry {
  posted_review_id : pystr;
  posted_reply_text : pystr;
  posted_timestamp : option nat
}.

(** The mutable attributes of the backend objects. *)
Record heap : Type := mk_heap {
  generator_history : list entry;
  handler_history : list posted_entry
}.

(** The generator object: the credential and the model built from it
    ([__init__] builds the model only when the key is set). *)
Record AIResponseGenerator : Type := mk_generator {
  api_key : option pystr;
  model_of : model
}.

(** [bool(self.api_key)]. *)
Definition has_api_key (self : AIResponseGenerator) : bool :=
  match api_key self with
  | Some k => truthy k
  | None => false
  end.

(** The two tables of the backend [detect_language]. *)
Definition turkish_indicators : list N := py "çğıöşüÇĞİÖŞÜ".

Definition english_words : list pystr :=
  [ py "the"; py "and"; py "is"; py "in"; py "to"; py "of"; py "a";
    py "that"; py "it"; py "with" ].

(** [_create_english_prompt] (lines 127-154). *)
Definition _create_english_prompt (review_text : pystr) (rating : Z) : pystr :=
  let '(sentiment, tone) :=
    if (4 <=? rating)%Z then (py "positive", py "grateful and encouraging")
    else if (rating =? 3)%Z then (py "neutral", py "understanding and helpful")
    else (py "negative", py "apologetic and solution-focused") in
  join nl
    [ [];
      py "You are a professional customer support representative for a mobile app. ";
      py "A user left a " ++ sentiment ++ py " review with " ++ str_of_int rating
        ++ py " stars:";
      [];
      py "Review: " ++ dquote ++ review_text ++ dquote;
      [];
      py "Please write a professional, helpful response that is:";
      py "- " ++ tone;
      py "- Under 200 characters";
      py "- Professional but friendly";
      py "- Addresses any concerns mentioned";
      py "- Encourages continued use of the app";
      [];
      py "Response:" ].

(** [_create_turkish_prompt] (lines 156-183). *)
Definition _create_turkish_prompt (review_text : pystr) (rating : Z) : pystr :=
  let '(sentiment, tone) :=
    if (4 <=? rating)%Z then (py "olumlu", py "minnettar ve teşvik edici")
    else if (rating =? 3)%Z then (py "nötr", py "anlayışlı ve yardımcı")
    else (py "olumsuz", py "özür dileyici ve çözüm odaklı") in
  join nl
    [ [];
      py "Sen bir mobil uygulama için profesyonel müşteri hizmetleri temsilcisisin.";
      py "Bir kullanıcı " ++ str_of_int rating ++ py " yıldızla " ++ sentiment
        ++ py " bir yorum bırakmış:";
      [];
      py "Yorum: " ++ dquote ++ review_text ++ dquote;
      [];
      py "Lütfen şu özelliklere sahip profesyonel ve yardımcı bir yanıt yaz:";
      py "- " ++ tone;
      py "- 200 karakterden az";
      py "- Profesyonel ama samimi";
      py "- Belirtilen endişeleri ele alan";
      py "- Uygulamanın kullanımını teşvik eden";
      [];
      py "Yanıt:" ].

Section WithRuntime.

Context `{Runtime}.

(** [detect_language] (lines 47-71). *)
Definition detect_language (text : pystr) : language :=
  if existsb (has_char text) turkish_indicators then Tr
  else
    let words := split (lower text) in
    if existsb (fun word => existsb (eqb_str word) words) english_words then En
    else En.

(** [generate_response] (lines 73-125). *)
Definition generate_response (self : AIResponseGenerator)
    (review_text : pystr) (rating : Z) (review_id : pystr)
  : M heap (option pystr) :=
  if negb (has_api_key self) then ret None
  else
    try_except
      (let language := detect_language review_text in
       let prompt :=
         match language with
         | Tr => _create_turkish_prompt review_text rating
         | _ => _create_english_prompt review_text rating
         end in
       do text <- external (fun n => model_of self n prompt) ;
       if truthy text then
         let ai_response := strip text in
         do t <- now ;
         do _ <- modify_heap (fun h =>
                   mk_heap (generator_history h
                              ++ [mk_entry review_id review_text rating language
                                           ai_response t])
                           (handler_history h)) ;
         ret (Some ai_response)
       else ret None)
      (fun _ => ret None).

End WithRuntime.

End BackendAiResponse.

(** ** [src/backend/reviews.py] *)

Module BackendReviews.
Import Py Effects.
Import BackendAiResponse.
Local Open Scope py_scope.

(** The handler object; the generator is passed to [__init__] as it is. *)
Record GooglePlayReviews : Type := mk_handler {
  service_of : service;
  enable_ai : bool;
  ai_generator : option AIResponseGenerator
}.

(** One entry of the list returned by [auto_reply_to_reviews]; every key
    but [review_id] and [status] is optional. *)
Record detail : Type := mk_detail {
  review_id : pystr;
  status : pystr;
  reason : option pystr;
  detail_rating : option Z;
  review_text : option pystr;
  ai_response : option pystr;
  error : option pystr
}.

Section WithRuntime.

Context `{Runtime}.

(** [list_reviews] (lines 34-77): as in [Reviews.list_reviews], the call
    and the formatting are the service's [reviews_list]; only an
    [HttpError] is caught and re-raised. *)
Definition list_reviews (self : GooglePlayReviews) (max_results : Z)
  : M heap (list review) :=
  try_except
    (external (fun n => reviews_list (service_of self) n max_results))
    (fun e =>
       match e with
       | HttpError _ _ =>
         raise (Exception (py "Failed to fetch reviews: " ++ str_exn e))
       | Exception _ => raise e
       end).

(** [reply_to_review] (lines 79-116): [False] on an [HttpError]; any other
    exception propagates. *)
Definition reply_to_review (self : GooglePlayReviews)
    (review_id reply_text : pystr) : M heap bool :=
  try_except
    (do _ <- log_reply_call review_id reply_text ;
     do _ <- external (fun n => reviews_reply (service_of self) n review_id reply_text) ;
     do _ <- (if enable_ai self then
                do t <- now ;
                modify_heap (fun h =>
                  mk_heap (generator_history h)
                          (handler_history h
                             ++ [mk_posted_entry review_id reply_text
                                   (match ai_generator self with
                                    | Some _ => Some t
                                    | None => None
                                    end)]))
              else ret tt) ;
     ret true)
    (fun e =>
       match e with
       | HttpError _ _ => ret false
       | Exception _ => raise e
       end).

(** The body of the loop of [auto_reply_to_reviews] (lines 137-192). *)
Definition process_review (self : GooglePlayReviews)
    (generator : AIResponseGenerator) (dry_run : bool)
    (results : list detail) (review : review) : M heap (list detail) :=
  if hasReply review then
    ret (results ++ [mk_detail (reviewId review) (py "skipped")
                               (Some (py "Already has a reply")) None None None None])
  else if (5 <=? rating review)%Z then
    ret (results ++ [mk_detail (reviewId review) (py "skipped")
                               (Some (py "Positive review (5 stars)")) None None None None])
  else
    try_except
      (do ai_response <- generate_response generator (userComment review)
                           (rating review) (reviewId review) ;
       match ai_response with
       | Some ((_ :: _) as ai_response) =>
         do status <- (if negb dry_run then
                         do success <- reply_to_review self (reviewId review) ai_response ;
                         ret (if success : bool then py "posted" else py "failed")
                       else ret (py "preview")) ;
         ret (results ++ [mk_detail (reviewId review) status None
                                    (Some (rating review)) (Some (userComment review))
                                    (Some ai_response) None])
       | _ =>
         ret (results ++ [mk_detail (reviewId review) (py "failed")
                                    (Some (py "Failed to generate AI response"))
                                    None None None None])
       end)
      (fun e =>
         ret (results ++ [mk_detail (reviewId review) (py "error") None None None None
                                    (Some (str_exn e))])).

(** [auto_reply_to_reviews] (lines 118-198). *)
Definition auto_reply_to_reviews (self : GooglePlayReviews)
    (max_results : Z) (dry_run : bool) : M heap (list detail) :=
  match enable_ai self, ai_generator self with
  | true, Some generator =>
    try_except
      (do reviews <- list_reviews self max_results ;
       for_each (process_review self generator dry_run) [] reviews)
      (fun e => raise e)
  | _, _ => raise (Exception (py "AI is not enabled or AI generator is not available"))
  end.

End WithRuntime.

End BackendReviews.

(** ** Vocabulary of the specification *)

Module Spec.
Import Py Effects AiResponse.

(** The response after the length gate of [_validate_response]
    (lines 310-311): the "possibly truncated" response. *)
Definition truncated (response : pystr) : pystr :=
  if (350 <? length response)%nat
  then slice_to 347 response ++ py "..."
  else response.

(** The specification's detector: an ordered list of (language, keyword
    set) pairs, scanned in priority order over the lowered text; the first
    language with a keyword occurring in the text wins, default [en]. *)
Definition language_table : list (language * list pystr) :=
  [ (Tr, turkish_words); (Es, spanish_words); (Fr, french_words);
    (De, german_words); (Ru, russian_words); (Id, indonesian_words);
    (Fa, persian_words) ].

Definition first_match (text_lower : pystr) : language :=
  match find (fun entry => any_word_in text_lower (snd entry)) language_table with
  | Some (l, _) => l
  | None => En
  end.

(** The specification's rule selector. *)
Definition rule_of_rating (rating : Z) : rule :=
  if ((rating =? 1) || (rating =? 2))%Z then apologize_and_support
  else if ((rating =? 4) || (rating =? 5))%Z then thank_and_engage
  else neutral_improvement.

End Spec.

(** ** The per-review state machine of the orchestrators *)

Module Orchestration.
Import Py Effects.

(** The counter an outcome is added to. *)
Inductive kind : Type := Skipped | Failed | Successful.

Definition kind_eqb (a b : kind) : bool :=
  match a, b with
  | Skipped, Skipped | Failed, Failed | Successful, Successful => true
  | _, _ => false
  end.

(** The state right after the listing call, in which the first review is
    processed. *)
Definition listed {H} (s : state H) : state H :=
  mk_state (S (clock s)) (reply_calls s) (heap s).

Module Cli.
Import AiResponse Reviews.

(** The result dictionary before the loop. *)
Abbreviation empty_results := (mk_results 0 0 0 0 (Some [])).

(** What one iteration does to the result dictionary, given the counter
    and the entry of the review. *)
Definition bump (k : kind) : summary -> summary :=
  match k with
  | Skipped => incr_skipped
  | Failed => incr_failed
  | Successful => incr_successful
  end.

Definition record_outcome (results : summary) (o : kind * detail) : summary :=
  append_detail (snd o) (bump (fst o) (incr_processed results)).

Definition tally (results : summary) (os : list (kind * detail)) : summary :=
  fold_left record_outcome os results.

(** The number of outcomes of a given kind. *)
Definition count (k : kind) (os : list (kind * detail)) : nat :=
  length (List.filter (fun o => kind_eqb (fst o) k) os).

Section WithRuntime.

Context `{Runtime}.
Variables (self : GooglePlayReviews) (generator : AIResponseGenerator)
          (dry_run : bool).

(** The transitions of one review [r] taken in state [s]: the counter
    bumped, the entry appended and the state reached. *)
Inductive outcome (r : review) (s : state history)
  : kind -> detail -> state history -> Prop :=
| skip_has_reply :
    hasReply r = true ->
    outcome r s Skipped
      (mk_detail (reviewId r) (py "skipped") (Some (py "already_has_reply")) None) s
| skip_no_comment :
    hasReply r = false ->
    strip (userComment r) = [] ->
    outcome r s Skipped
      (mk_detail (reviewId r) (py "skipped") (Some (py "no_comment")) None) s
| generation_failed o s1 :
    hasReply r = false ->
    strip (userComment r) <> [] ->
    generate_response generator (userComment r) (rating r) (reviewId r) s = (Ok o, s1) ->
    o = None \/ o = Some [] ->
    outcome r s Failed
      (mk_detail (reviewId r) (py "failed") (Some (py "ai_generation_failed")) None) s1
| previewed v s1 :
    hasReply r = false ->
    strip (userComment r) <> [] ->
    generate_response generator (userComment r) (rating r) (reviewId r) s
      = (Ok (Some v), s1) ->
    v <> [] ->
    dry_run = true ->
    outcome r s Successful
      (mk_detail (reviewId r) (py "dry_run_success") None (Some v)) s1
| dispatched v s1 s2 :
    hasReply r = false ->
    strip (userComment r) <> [] ->
    generate_response generator (userComment r) (rating r) (reviewId r) s
      = (Ok (Some v), s1) ->
    v <> [] ->
    dry_run = false ->
    reply_to_review self (reviewId r) v s1 = (Ok true, s2) ->
    outcome r s Successful
      (mk_detail (reviewId r) (py "success") None (Some v)) s2
| dispatch_refused v s1 s2 :
    hasReply r = false ->
    strip (userComment r) <> [] ->
    generate_response generator (userComment r) (rating r) (reviewId r) s
      = (Ok (Some v), s1) ->
    v <> [] ->
    dry_run = false ->
    reply_to_review self (reviewId r) v s1 = (Ok false, s2) ->
    outcome r s Failed
      (mk_detail (reviewId r) (py "failed") (Some (py "api_post_failed")) (Some v)) s2
| dispatch_raised v s1 e s2 :
    hasReply r = false ->
    strip (userComment r) <> [] ->
    generate_response generator (userComment r) (rating r) (reviewId r) s
      = (Ok (Some v), s1) ->
    v <> [] ->
    dry_run = false ->
    reply_to_review self (reviewId r) v s1 = (Raise e, s2) ->
    outcome r s Failed
      (mk_detail (reviewId r) (py "failed") (Some (str_exn e)) None) s2.

(** The outcomes of a batch, review after review. *)
Inductive run : list review -> state history -> list (kind * detail)
                -> state history -> Prop :=
| run_nil s : run [] s [] s
| run_cons r rs s k d s1 os s2 :
    outcome r s k d s1 ->
    run rs s1 os s2 ->
    run (r :: rs) s ((k, d) :: os) s2.

(** The state in which the review that follows the reviews [pre] of the
    batch is processed, for a run started in [s]. *)
Definition state_before (pre : list review) (s : state history) : state history :=
  snd (for_each (process_review self generator dry_run) empty_results pre
                (listed s)).

End WithRuntime.

End Cli.

Module Backend.
Import BackendAiResponse BackendReviews.

Section WithRuntime.

Context `{Runtime}.
Variables (self : GooglePlayReviews) (generator : AIResponseGenerator)
          (dry_run : bool).

(** The transitions of one review in the backend orchestrator. *)
Inductive outcome (r : review) (s : state heap) : detail -> state heap -> Prop :=
| skip_has_reply :
    hasReply r = true ->
    outcome r s
      (mk_detail (reviewId r) (py "skipped") (Some (py "Already has a reply"))
                 None None None None) s
| skip_five_stars :
    hasReply r = false ->
    (5 <= rating r)%Z ->
    outcome r s
      (mk_detail (reviewId r) (py "skipped") (Some (py "Positive review (5 stars)"))
                 None None None None) s
| generation_failed o s1 :
    hasReply r = false ->
    (rating r < 5)%Z ->
    generate_response generator (userComment r) (rating r) (reviewId r) s = (Ok o, s1) ->
    o = None \/ o = Some [] ->
    outcome r s
      (mk_detail (reviewId r) (py "failed") (Some (py "Failed to generate AI response"))
                 None None None None) s1
| previewed v s1 :
    hasReply r = false ->
    (rating r < 5)%Z ->
    generate_response generator (userComment r) (rating r) (reviewId r) s
      = (Ok (Some v), s1) ->
    v <> [] ->
    dry_run = true ->
    outcome r s
      (mk_detail (reviewId r) (py "preview") None (Some (rating r))
                 (Some (userComment r)) (Some v) None) s1
| dispatched v s1 success s2 :
    hasReply r = false ->
    (rating r < 5)%Z ->
    generate_response generator (userComment r) (rating r) (reviewId r) s
      = (Ok (Some v), s1) ->
    v <> [] ->
    dry_run = false ->
    reply_to_review self (reviewId r) v s1 = (Ok success, s2) ->
    outcome r s
      (mk_detail (reviewId r) (if success : bool then py "posted" else py "failed")
                 None (Some (rating r)) (Some (userComment r)) (Some v) None) s2
| dispatch_raised v s1 e s2 :
    hasReply r = false ->
    (rating r < 5)%Z ->
    generate_response generator (userComment r) (rating r) (reviewId r) s
      = (Ok (Some v), s1) ->
    v <> [] ->
    dry_run = false ->
    reply_to_review self (reviewId r) v s1 = (Raise e, s2) ->
    outcome r s
      (mk_detail (reviewId r) (py "error") None None None None (Some (str_exn e))) s2.

Inductive run : list review -> state heap -> list detail -> state heap -> Prop :=
| run_nil s : run [] s [] s
| run_cons r rs s d s1 ds s2 :
    outcome r s d s1 ->
    run rs s1 ds s2 ->
    run (r :: rs) s (d :: ds) s2.

Definition state_before (pre : list review) (s : state heap) : state heap :=
  snd (for_each (process_review self generator dry_run) [] pre (listed s)).

End WithRuntime.

End Backend.

End Orchestration.

(** ** Concrete inputs used by the examples *)

Module Fixtures.
Import Py Effects.

(** A platform whose remaining case table is the identity and whose
    [HttpError] renders as its content.  The examples below use ASCII
    inputs only, on which [lower] does not consult it. *)
Definition plain_runtime : Runtime :=
  {| lower_rest := fun c => [c]; http_error_str := fun _ content => content |}.

(** 400 letters, and the same with a leading blank. *)
Definition letters_400 : pystr := repeat 0x61 400.
Definition blank_then_letters : pystr := 0x20 :: repeat 0x61 399.

(** Reviews: one star with a complaint, five stars with praise, one that
    already has a reply, one whose text is blank. *)
Definition crash_review : review :=
  mk_review (py "r1") 1 (py "App crashes constantly") false.
Definition praise_review : review :=
  mk_review (py "r5") 5 (py "Great app, love it") false.
Definition replied_review : review :=
  mk_review (py "r3") 3 (py "It is fine") true.
Definition blank_review : review :=
  mk_review (py "r0") 3 (py "   ") false.

Definition mixed_batch : list review :=
  [praise_review; crash_review; replied_review; blank_review].

(** Model clients: one that answers politely, one that answers with an
    apology, one whose call raises, one that raises at the call number
    [n0] only. *)
Definition polite_text : pystr :=
  py "Thank you for the feedback, we are looking into it.".
Definition polite_model : model := fun _ _ => Ok polite_text.
Definition apology_model : model :=
  fun _ _ => Ok (py "Sorry for the inconvenience, we'll fix it soon").
Definition down_model : model := fun _ _ => Raise (Exception (py "503")).
Definition flaky_model (n0 : nat) : model :=
  fun n _ => if Nat.eqb n n0 then Raise (Exception (py "503")) else Ok polite_text.

(** Storefronts that list the given batch; the second refuses every
    reply with an exception. *)
Definition store (batch : list review) : service :=
  mk_service (fun _ _ => Ok batch) (fun _ _ _ => Ok tt).
Definition read_only_store (batch : list review) : service :=
  mk_service (fun _ _ => Ok batch) (fun _ _ _ => Raise (Exception (py "boom"))).

(** Generators and handlers of [src/]: the knowledge base is the empty
    dictionary; the client is absent when the credential is missing. *)
Definition no_kb : AiResponse.kb := AiResponse.mk_kb None None None None None None.
Definition generator_with (client : option model) : AiResponse.AIResponseGenerator :=
  AiResponse.mk_generator no_kb client.
Definition handler (svc : service) (client : option model) : Reviews.GooglePlayReviews :=
  Reviews.new svc true (generator_with client).
Definition start : state AiResponse.history := mk_state 0 [] [].

(** Generators and handlers of [src/backend/]. *)
Definition backend_generator (m : model) : BackendAiResponse.AIResponseGenerator :=
  BackendAiResponse.mk_generator (Some (py "key")) m.
Definition backend_handler (svc : service) (m : model)
  : BackendReviews.GooglePlayReviews :=
  BackendReviews.mk_handler svc true (Some (backend_generator m)).
Definition backend_start : state BackendAiResponse.heap :=
  mk_state 0 [] (BackendAiResponse.mk_heap [] []).

End Fixtures.

(** ** What a run leaves behind: vocabulary *)

Module Audit.
Import Py Effects AiResponse.

(** The guards of lines 218-238 of [src/reviews.py], negated: the review
    is handed to the generator. *)
Definition eligible (r : review) : bool :=
  negb (hasReply r)
  && negb (negb (truthy (userComment r)) || eqb_str (strip (userComment r)) (py "")).

(** The position of a language in the chain of tests of [detect_language]
    (lines 145-173 of [src/ai_response.py]); the default comes last. *)
Definition rank (l : language) : nat :=
  match l with
  | Tr => 0 | Es => 1 | Fr => 2 | De => 3 | Ru => 4 | Id => 5 | Fa => 6 | En => 7
  end.

(** The number of model calls one [generate_response] makes. *)
Definition model_calls (self : AIResponseGenerator) : nat :=
  match gemini_client self with
  | Some _ => 1
  | None => 0
  end.

Section WithRuntime.
Context `{Runtime}.

(** A text the validator can return. *)
Definition validated (v : pystr) : Prop :=
  exists raw l, _validate_response raw l = Some v.

(** A history entry as [generate_response] writes it: the final response is
    the validator's answer on the recorded original response, for the
    language detected in the recorded review text, and its length is
    counted. *)
Definition well_logged (e : log_entry) : Prop :=
  log_language e = detect_language (log_review_text e) /\
  _validate_response (original_ai_response e) (log_language e)
  = Some (final_response e) /\
  character_count e = length (final_response e).

End WithRuntime.

End Audit.

(** ** [get_stats] *)

Module Stats.
Import Py Effects AiResponse Reviews.
Import QArith_base.







End Stats.

(** ** [src/auth.py] *)

Module Auth.
Import Py Effects.
Local Open Scope py_scope.

(** The service-account file as a dictionary. *)
Definition account : Type := list (pystr * pystr).

(** The authentication object; [service] caches the client once built. *)
Record GooglePlayAuth : Type := mk_auth {
  service_account_data : option account;
  service : option Effects.service
}.

(** [GooglePlayAuth(service_account_data)]. *)
Definition new (data : option account) : GooglePlayAuth := mk_auth data None.

(** [authenticate] (lines 31-72).  [connect] stands for the two library
    calls that load the credentials and build the client; both handlers
    re-raise what they caught.  The object is returned with its [service]
    attribute set. *)
Definition authenticate {H} (connect : account -> nat -> result Effects.service)
    (self : GooglePlayAuth) : M H (GooglePlayAuth * Effects.service) :=
  match service_account_data self with
  | Some ((_ :: _) as data) =>
    do svc <- external (connect data) ;
    ret (mk_auth (service_account_data self) (Some svc), svc)
  | _ =>
    raise (Exception (py "Service account data not provided. "
                      ++ py "Please provide service account JSON data."))
  end.

(** [get_service] (lines 74-83). *)
Definition get_service {H} (connect : account -> nat -> result Effects.service)
    (self : GooglePlayAuth) : M H (GooglePlayAuth * Effects.service) :=
  match service self with
  | None => authenticate connect self
  | Some svc => ret (self, svc)
  end.

End Auth.

(** ** [src/main.py]: the commands that drive the engine *)

Module Main.
Import Py Effects AiResponse Reviews Stats.

(** What the tool writes: a call of [print] or of one of the four
    [_print_*] helpers, with its message. *)
Inductive line : Type :=
| print (text : pystr)
| _print_success (message : pystr)
| _print_error (message : pystr)
| _print_info (message : pystr)
| _print_warning (message : pystr).

(** [s * n]. *)
Definition times (s : pystr) (n : nat) : pystr := concat (repeat s n).

(** [l[start:]] for a Python integer [start]: a negative index counts
    from the end and is clipped at the beginning of the list. *)
Definition slice_from {A} (start : Z) (l : list A) : list A :=
  if (start <? 0)%Z
  then drop (Z.to_nat (Z.max 0 (Z.of_nat (length l) + start))) l
  else drop (Z.to_nat start) l.

(** [history[-limit:] if len(history) > limit else history]
    (line 293; the same expression is line 314 of [src/pages/api/index.py]). *)
Definition recent_history {A} (history : list A) (limit : Z) : list A :=
  if (limit <? Z.of_nat (length history))%Z
  then slice_from (- limit) history
  else history.

(** The entries in the order they are shown: [reversed(recent_history)]
    (line 298; line 319 of [src/pages/api/index.py]). *)
Definition shown_history {A} (history : list A) (limit : Z) : list A :=
  rev (recent_history history limit).

(** The command-line object. *)
Record GooglePlayReviewsCLI : Type := mk_cli {
  auth : Auth.GooglePlayAuth;
  reviews_handler : option GooglePlayReviews
}.

(** [GooglePlayReviewsCLI()] (lines 42-47): the authentication object is
    built without arguments. *)
Definition new_cli : GooglePlayReviewsCLI := mk_cli (Auth.new None) None.

(** How [setup_package_name] ends: it returns, the object updated, or
    leaves the program through [sys.exit]. *)
Inductive setup_outcome : Type :=
| returned (self : GooglePlayReviewsCLI)
| sys_exit (status : Z).

(** The line printed for one entry of [results['details']]
    (lines 228-238). *)
Definition detail_line (d : detail) : line :=
  if eqb_str (status d) (py "success") then
    _print_success (py "Review " ++ review_id d ++ py ": "
                    ++ slice_to 50 (default (py "") (response d)) ++ py "...")
  else if eqb_str (status d) (py "dry_run_success") then
    _print_info (py "DRY RUN - Review " ++ review_id d ++ py ": "
                 ++ slice_to 50 (default (py "") (response d)) ++ py "...")
  else if eqb_str (status d) (py "skipped") then
    _print_warning (py "Review " ++ review_id d ++ py ": Skipped ("
                    ++ default (py "unknown") (reason d) ++ py ")")
  else
    _print_error (py "Review " ++ review_id d ++ py ": Failed ("
                  ++ default (py "unknown") (reason d) ++ py ")").

(** The lines that announce the mode (lines 205-213). *)
Definition announce (max_results : Z) (actually_post : bool) : list line :=
  _print_info (py "Starting auto-reply process for " ++ str_of_int max_results
               ++ py " reviews...")
  :: (if actually_post then
        [ _print_warning (py "LIVE MODE - Responses will be posted to Play Store!");
          _print_warning (py "This action cannot be undone!");
          print (nl ++ times (py "=") 60);
          print (py "WARNING: Posting AI responses to real reviews!");
          print (times (py "=") 60) ]
      else
        [ _print_warning (py "DRY RUN MODE - No replies will be posted (add --live to post)") ]).

(** The counters of the summary (lines 218-223). *)
Definition counters (results : summary) : list line :=
  [ print (nl ++ py "Auto-Reply Results:");
    print (times (py "=") 50);
    print (py "Processed: " ++ str_of_int (Z.of_nat (processed results)));
    print (py "Successful: " ++ str_of_int (Z.of_nat (successful results)));
    print (py "Failed: " ++ str_of_int (Z.of_nat (failed results)));
    print (py "Skipped: " ++ str_of_int (Z.of_nat (skipped results))) ].

Section WithRuntime.

Context `{Runtime}.

(** [setup_package_name] (lines 49-63); [generator] is the object
    [AIResponseGenerator()] builds in the current environment. *)
Definition setup_package_name
    (connect : Auth.account -> nat -> result service)
    (generator : AIResponseGenerator)
    (self : GooglePlayReviewsCLI) (enable_ai : bool)
  : state history -> (list line * setup_outcome) * state history :=
  fun s =>
    match Auth.get_service connect (auth self) s with
    | (Ok (auth', svc), s') =>
      (([], returned (mk_cli auth' (Some (Reviews.new svc enable_ai generator)))), s')
    | (Raise e, s') =>
      (([ _print_error (py "Failed to initialize reviews handler: " ++ str_exn e) ],
        sys_exit 1), s')
    end.

(** [auto_reply] (lines 185-244).  What has been printed stays printed when
    an exception is caught; reading the key ['details'] of a summary that
    has none raises [KeyError('details')], whose [str] is the quoted
    key. *)
Definition auto_reply (self : GooglePlayReviewsCLI) (max_results : Z) (live : bool)
  : state history -> list line * state history :=
  fun s =>
    match reviews_handler self with
    | None =>
      ([ _print_error (py "Reviews handler not initialized. Please provide package name.") ], s)
    | Some handler =>
      if negb (enable_ai handler) then
        ([ _print_error (py "AI is not enabled. Use --enable-ai flag.") ], s)
      else
        let actually_post := live in
        match auto_reply_to_reviews handler max_results (negb actually_post) s with
        | (Raise e, s') =>
          (announce max_results actually_post
           ++ [ _print_error (py "Failed to auto-reply: " ++ str_exn e) ], s')
        | (Ok results, s') =>
          match details results with
          | None =>
            (announce max_results actually_post ++ counters results
             ++ [ _print_error (py "Failed to auto-reply: " ++ py "'details'") ], s')
          | Some ds =>
            (announce max_results actually_post ++ counters results
             ++ match ds with
                | [] => []
                | _ :: _ =>
                  print (nl ++ py "Details:") :: print (times (py "-") 50)
                  :: map detail_line ds
                end
             ++ (if (0 <? successful results)%nat then
                   [ _print_success (py "Successfully processed "
                                     ++ str_of_int (Z.of_nat (successful results))
                                     ++ py " reviews") ]
                 else []), s')
          end
        end
    end.

End WithRuntime.

End Main.

(** ** What a backend run leaves behind: vocabulary *)

Module BackendAudit.
Import Py Effects BackendAiResponse BackendReviews.

(** The guards of lines 139-154 of [src/backend/reviews.py], negated: the
    review is handed to the generator. *)
Definition open_review (r : review) : bool :=
  negb (hasReply r) && negb (5 <=? rating r)%Z.

(** The number of model calls one backend [generate_response] makes. *)
Definition backend_model_calls (self : AIResponseGenerator) : nat :=
  if has_api_key self then 1 else 0.

(** An entry of the result list with status ['posted']. *)
Definition is_posted (d : detail) : bool := eqb_str (status d) (py "posted").

(** The review and the text of an entry of the handler's history, and of
    an entry of the result list. *)
Definition posted_pair (p : posted_entry) : pystr * pystr :=
  (posted_review_id p, posted_reply_text p).

Definition detail_pair (d : detail) : pystr * pystr :=
  (review_id d, default (py "") (ai_response d)).

End BackendAudit.

(** * Properties *)

(** ** Facts about the string operations *)

Module PyFacts.
Import Py.

Lemma startswith_spec (s w : pystr) :
  startswith s w = true <-> exists b, s = w ++ b.
Proof.
  revert s. induction w as [|c w IH]; intros s; simpl.
  - split; [intros _; exists s; reflexivity | reflexivity].
  - destruct s as [|d s]; simpl.
    + split; [discriminate | intros [b Hb]; discriminate].
    + rewrite andb_true_iff, N.eqb_eq, IH. split.
      * intros [-> [b ->]]. exists b. reflexivity.
      * intros [b Hb]. injection Hb as -> ->. split; [reflexivity | eauto].
Qed.

Lemma contains_spec (s w : pystr) :
  contains s w = true <-> exists a b, s = a ++ w ++ b.
Proof.
  induction s as [|d s IH]; simpl.
  - rewrite orb_false_r, startswith_spec. split.
    + intros [b Hb]. exists [], b. exact Hb.
    + intros [a [b Hab]]. destruct a; simpl in Hab; [eauto | discriminate].
  - rewrite orb_true_iff, startswith_spec, IH. split.
    + intros [[b Hb] | [a [b Hab]]].
      * exists [], b. exact Hb.
      * exists (d :: a), b. simpl. congruence.
    + intros [a [b Hab]]. destruct a as [|d' a]; simpl in Hab.
      * left. eauto.
      * right. injection Hab as _ ->. eauto.
Qed.

(** A word found in a piece of a string is found in the string. *)
Lemma contains_infix (a s b w : pystr) :
  contains s w = true -> contains (a ++ s ++ b) w = true.
Proof.
  rewrite !contains_spec. intros [a' [b' ->]].
  exists (a ++ a'), (b' ++ b). rewrite <- !app_assoc. reflexivity.
Qed.

Lemma any_contains_infix (a s b : pystr) (words : list pystr) :
  existsb (contains (a ++ s ++ b)) words = false ->
  existsb (contains s) words = false.
Proof.
  intros Hall. apply not_true_is_false. intros Hex.
  apply existsb_exists in Hex as [w [Hin Hw]].
  assert (Hbig : existsb (contains (a ++ s ++ b)) words = true)
    by (apply existsb_exists; exists w; split; [exact Hin | apply contains_infix, Hw]).
  congruence.
Qed.

Lemma lstrip_suffix (s : pystr) : exists a, s = a ++ lstrip s.
Proof.
  induction s as [|c s [a IH]]; simpl.
  - exists []. reflexivity.
  - destruct (is_space c).
    + exists (c :: a). simpl. congruence.
    + exists []. reflexivity.
Qed.

Lemma rstrip_prefix (s : pystr) : exists b, s = rstrip s ++ b.
Proof.
  unfold rstrip. destruct (lstrip_suffix (rev s)) as [a Ha].
  exists (rev a). rewrite <- rev_app_distr, <- Ha, rev_involutive. reflexivity.
Qed.

(** [s.strip()] is a contiguous piece of [s]. *)
Lemma strip_infix (s : pystr) : exists a b, s = a ++ strip s ++ b.
Proof.
  unfold strip. destruct (lstrip_suffix s) as [a Ha].
  destruct (rstrip_prefix (lstrip s)) as [b Hb].
  exists a, b. rewrite <- Hb. exact Ha.
Qed.

Lemma length_strip_le (s : pystr) : (length (strip s) <= length s)%nat.
Proof.
  destruct (strip_infix s) as [a [b Hs]].
  rewrite Hs at 2. rewrite !length_app. lia.
Qed.

Lemma lstrip_head (s : pystr) (c : N) (t : pystr) :
  lstrip s = c :: t -> is_space c = false.
Proof.
  induction s as [|d s IH]; simpl; [discriminate |].
  destruct (is_space d) eqn:Hd; [exact IH |].
  intros Heq. injection Heq as -> _. exact Hd.
Qed.

Lemma lstrip_nonspace (c : N) (t : pystr) :
  is_space c = false -> lstrip (c :: t) = c :: t.
Proof. intros Hc. simpl. rewrite Hc. reflexivity. Qed.

Lemma lstrip_idemp (s : pystr) : lstrip (lstrip s) = lstrip s.
Proof.
  destruct (lstrip s) as [|c t] eqn:Hs; [reflexivity |].
  apply lstrip_nonspace. eapply lstrip_head, Hs.
Qed.

(** Stripping on the left stops at the first character that is no space. *)
Lemma lstrip_app_nonspace (x : pystr) (c : N) (y : pystr) :
  is_space c = false -> lstrip (x ++ c :: y) = lstrip x ++ c :: y.
Proof.
  intros Hc. induction x as [|d x IH]; simpl.
  - rewrite Hc. reflexivity.
  - destruct (is_space d); [exact IH | reflexivity].
Qed.

Lemma rstrip_cons_nonspace (c : N) (t : pystr) :
  is_space c = false -> rstrip (c :: t) = c :: rstrip t.
Proof.
  intros Hc. unfold rstrip. simpl rev at 2.
  rewrite lstrip_app_nonspace by exact Hc.
  rewrite rev_app_distr. reflexivity.
Qed.

Lemma rstrip_app_nonspace (x : pystr) (c : N) :
  is_space c = false -> rstrip (x ++ [c]) = x ++ [c].
Proof.
  intros Hc. unfold rstrip. rewrite rev_app_distr. simpl.
  rewrite Hc. simpl. rewrite rev_involutive. reflexivity.
Qed.

Lemma rstrip_idemp (s : pystr) : rstrip (rstrip s) = rstrip s.
Proof.
  unfold rstrip. rewrite rev_involutive, lstrip_idemp. reflexivity.
Qed.

(** [s.strip().strip() == s.strip()]. *)
Lemma strip_idemp (s : pystr) : strip (strip s) = strip s.
Proof.
  unfold strip. destruct (lstrip s) as [|c t] eqn:Hs; [reflexivity |].
  pose proof (lstrip_head _ _ _ Hs) as Hc.
  rewrite (rstrip_cons_nonspace c t Hc), (lstrip_nonspace c _ Hc).
  rewrite <- (rstrip_cons_nonspace c t Hc). apply rstrip_idemp.
Qed.

Lemma strip_nil_iff (s : pystr) :
  negb (truthy s) || eqb_str (strip s) (py "") = true <-> strip s = [].
Proof.
  change (py "") with (@nil N). destruct s as [|c s]; simpl negb; simpl orb.
  - split; reflexivity.
  - destruct (strip (c :: s)); simpl; split; intros; congruence.
Qed.

Section CaseMapping.
Context `{Runtime}.

Lemma lower_app (a b : pystr) : lower (a ++ b) = lower a ++ lower b.
Proof. unfold lower. apply flat_map_app. Qed.

(** A word absent from the lowered string is absent from every lowered
    piece of it. *)
Lemma any_contains_lower_infix (a s b : pystr) (words : list pystr) :
  existsb (contains (lower (a ++ s ++ b))) words = false ->
  existsb (contains (lower s)) words = false.
Proof.
  rewrite !lower_app. apply any_contains_infix.
Qed.

End CaseMapping.

End PyFacts.

(** ** The response validator *)

Module ValidatorFacts.
Import Py Effects AiResponse Spec PyFacts.

Section WithRuntime.
Context `{Runtime}.

(** The validator in terms of the truncated response. *)
Lemma validate_unfold (response : pystr) (l : language) :
  _validate_response response l =
    if negb (truthy response) then None
    else if existsb (contains (lower (truncated response))) forbidden_words then None
    else if (length (strip (truncated response)) <? 10)%nat then None
    else Some (strip (truncated response)).
Proof. destruct response; reflexivity. Qed.

Lemma length_truncated (response : pystr) :
  (length (truncated response) <= 350)%nat.
Proof.
  unfold truncated, slice_to.
  destruct (350 <? length response)%nat eqn:Hlen.
  - rewrite length_app, length_take.
    change (length (py "...")) with 3%nat. lia.
  - apply Nat.ltb_ge in Hlen. exact Hlen.
Qed.

Lemma truncated_short (response : pystr) :
  (length response <= 350)%nat -> truncated response = response.
Proof.
  intros Hlen. unfold truncated.
  apply Nat.ltb_ge in Hlen. rewrite Hlen. reflexivity.
Qed.

Lemma truthy_length (s : pystr) : (0 < length s)%nat -> truthy s = true.
Proof. destruct s; simpl; [lia | reflexivity]. Qed.

(** A long response, once cut and stripped, still ends in the marker. *)
Lemma strip_truncated_long (response : pystr) :
  (350 < length response)%nat ->
  strip (truncated response) = lstrip (slice_to 347 response) ++ py "...".
Proof.
  intros Hlen. unfold truncated. apply Nat.ltb_lt in Hlen. rewrite Hlen.
  change (py "...") with ([0x2E; 0x2E] ++ [0x2E]). unfold strip.
  change ([0x2E; 0x2E] ++ [0x2E]) with (0x2E :: [0x2E; 0x2E]) at 1.
  rewrite lstrip_app_nonspace by reflexivity.
  change (0x2E :: [0x2E; 0x2E]) with ([0x2E; 0x2E] ++ [0x2E]).
  rewrite app_assoc. apply rstrip_app_nonspace. reflexivity.
Qed.

(** C2 (amended).  A response of more than 350 characters is not rejected
    for its length: it is cut to its first 347 characters followed by the
    ellipsis marker, and the validator answers as it does on that cut text.
    Every text the validator returns has at most 350 characters.  The text
    returned for a long response is the cut text without its leading
    blanks, so it ends in the marker, and it has exactly 350 characters
    when the response does not start with a blank. *)
Theorem validated_length (response : pystr) (l : language) :
  ((350 < length response)%nat ->
     _validate_response response l
     = _validate_response (slice_to 347 response ++ py "...") l) /\
  (forall v, _validate_response response l = Some v ->
     (length v <= 350)%nat /\
     ((350 < length response)%nat ->
        v = lstrip (slice_to 347 response) ++ py "..." /\
        (lstrip response = response -> length v = 350%nat))).
Proof.
  split.
  - intros Hlong. rewrite !validate_unfold.
    assert (Hcut : truncated response = slice_to 347 response ++ py "...").
    { unfold truncated. apply Nat.ltb_lt in Hlong. rewrite Hlong. reflexivity. }
    rewrite <- Hcut. rewrite (truncated_short (truncated response))
      by apply length_truncated.
    rewrite !truthy_length; [reflexivity | | lia].
    rewrite Hcut, length_app. change (length (py "...")) with 3%nat. lia.
  - intros v Hv. rewrite validate_unfold in Hv.
    destruct (negb (truthy response)) eqn:Hne; [discriminate |].
    destruct (existsb _ forbidden_words) eqn:Hforb; [discriminate |].
    destruct (length (strip (truncated response)) <? 10)%nat eqn:Hshort;
      [discriminate |].
    injection Hv as <-. split.
    + pose proof (length_strip_le (truncated response)).
      pose proof (length_truncated response). lia.
    + intros Hlong. pose proof (strip_truncated_long response Hlong) as Hstrip.
      split; [exact Hstrip |].
      intros Hfix. rewrite Hstrip. destruct response as [|c r]; [discriminate |].
      pose proof (lstrip_head _ _ _ Hfix) as Hc.
      unfold slice_to. simpl take. rewrite (lstrip_nonspace c _ Hc).
      rewrite length_app. change (length (py "...")) with 3%nat.
      change (c :: take 346 r) with (take 347 (c :: r)).
      rewrite length_take. lia.
Qed.

(** C3.  The validator rejects a response whenever the possibly truncated
    response, lowered, contains a word of [forbidden_words]: the whole
    response is refused, nothing is cut out of it.  Hence a text it
    returns contains no forbidden word, whatever the case of its
    letters; and the apology sentence of the specification is rejected. *)
Theorem forbidden_word_rejects (response : pystr) (l : language) :
  (existsb (contains (lower (truncated response))) forbidden_words = true ->
     _validate_response response l = None) /\
  (forall v, _validate_response response l = Some v ->
     Forall (fun w => contains (lower v) w = false) forbidden_words) /\
  _validate_response (py "Sorry for the inconvenience, we'll fix it soon") l = None.
Proof.
  split; [| split].
  - intros Hforb. rewrite validate_unfold, Hforb.
    destruct (negb (truthy response)); reflexivity.
  - intros v Hv. rewrite validate_unfold in Hv.
    destruct (negb (truthy response)); [discriminate |].
    destruct (existsb _ forbidden_words) eqn:Hforb; [discriminate |].
    destruct (length (strip (truncated response)) <? 10)%nat; [discriminate |].
    injection Hv as <-.
    destruct (strip_infix (truncated response)) as [a [b Hab]].
    rewrite Hab in Hforb. apply any_contains_lower_infix in Hforb.
    apply List.Forall_forall. intros w Hw.
    apply not_true_is_false. intros Hcontains.
    assert (existsb (contains (lower (strip (truncated response)))) forbidden_words
            = true) by (apply existsb_exists; exists w; split; assumption).
    congruence.
  - vm_compute. reflexivity.
Qed.

(** C10.  Validation is idempotent: a text returned by the validator is
    returned unchanged when validated again. *)
Theorem validate_idempotent (t : pystr) (l : language) (v : pystr) :
  _validate_response t l = Some v -> _validate_response v l = Some v.
Proof.
  intros Hv. rewrite validate_unfold in Hv.
  destruct (negb (truthy t)); [discriminate |].
  destruct (existsb _ forbidden_words) eqn:Hforb; [discriminate |].
  destruct (length (strip (truncated t)) <? 10)%nat eqn:Hshort; [discriminate |].
  injection Hv as <-. apply Nat.ltb_ge in Hshort.
  assert (Hle : (length (strip (truncated t)) <= 350)%nat).
  { pose proof (length_strip_le (truncated t)).
    pose proof (length_truncated t). lia. }
  set (v := strip (truncated t)) in *.
  rewrite validate_unfold, (truncated_short v Hle).
  rewrite truthy_length by lia. simpl negb. cbv iota.
  destruct (strip_infix (truncated t)) as [a [b Hab]]. fold v in Hab.
  rewrite Hab in Hforb. apply any_contains_lower_infix in Hforb.
  rewrite Hforb. unfold v at 1 2. rewrite strip_idemp. fold v.
  apply Nat.ltb_ge in Hshort. rewrite Hshort. reflexivity.
Qed.

End WithRuntime.

#[local] Existing Instance Fixtures.plain_runtime.
Import Fixtures.

(** C2, as stated, fails: a response of 400 characters that starts with a
    blank passes every gate and comes back with 349 characters. *)
Lemma validated_400_may_be_shorter :
  length blank_then_letters = 400%nat /\
  exists v, _validate_response blank_then_letters En = Some v /\
            length v = 349%nat.
Proof.
  split; [reflexivity |].
  eexists. split; [vm_compute; reflexivity | reflexivity].
Qed.

(** 400 letters come back as 347 letters and the marker: 350 characters. *)
Lemma validated_length_witness :
  _validate_response letters_400 En
  = _validate_response (slice_to 347 letters_400 ++ py "...") En /\
  exists v, _validate_response letters_400 En = Some v /\
            v = repeat 0x61 347 ++ py "..." /\ length v = 350%nat.
Proof.
  assert (Hlong : (350 < length letters_400)%nat)
    by (unfold letters_400; rewrite repeat_length; lia).
  assert (Hv : _validate_response letters_400 En
               = Some (repeat 0x61 347 ++ py "..."))
    by (vm_compute; reflexivity).
  destruct (validated_length letters_400 En) as [Hcut Hreturned].
  split; [exact (Hcut Hlong) |].
  exists (repeat 0x61 347 ++ py "..."). split; [exact Hv |].
  destruct (Hreturned _ Hv) as [_ Hshape].
  destruct (Hshape Hlong) as [_ Hlen].
  split; [reflexivity | apply Hlen; reflexivity].
Defined.

(** A clean reply passes; one with an apology in capitals does not. *)
Lemma forbidden_word_rejects_witness :
  _validate_response (py "We are SORRY about the crash") En = None /\
  Forall (fun w => contains (lower (py "Thanks for the kind words!")) w = false)
         forbidden_words.
Proof.
  split.
  - destruct (forbidden_word_rejects (py "We are SORRY about the crash") En)
      as [Hreject _].
    apply Hreject. vm_compute. reflexivity.
  - destruct (forbidden_word_rejects (py "  Thanks for the kind words! ") En)
      as [_ [Hclean _]].
    apply Hclean. vm_compute. reflexivity.
Defined.

(** Validating the stripped text of a padded reply changes nothing. *)
Lemma validate_idempotent_witness :
  _validate_response (py "Thanks for the kind words!") En
  = Some (py "Thanks for the kind words!").
Proof.
  apply (validate_idempotent (py "  Thanks for the kind words! ") En).
  vm_compute. reflexivity.
Defined.

End ValidatorFacts.

(** ** Language detection and rule selection *)

Module DetectorFacts.
Import Py Effects AiResponse Spec.

(** C8.  Rule selection is a total function of the rating: 1 and 2 give
    [apologize_and_support], 3 gives [neutral_improvement], 4 and 5 give
    [thank_and_engage], and every other rating (0 and 6 among them) gives
    the default [neutral_improvement]. *)
Theorem select_rule_table (rating : Z) :
  select_rule rating = rule_of_rating rating /\
  select_rule 1 = apologize_and_support /\
  select_rule 2 = apologize_and_support /\
  select_rule 3 = neutral_improvement /\
  select_rule 4 = thank_and_engage /\
  select_rule 5 = thank_and_engage /\
  select_rule 0 = neutral_improvement /\
  select_rule 6 = neutral_improvement /\
  ((rating < 1 \/ 5 < rating)%Z -> select_rule rating = neutral_improvement).
Proof.
  assert (Htable : select_rule rating = rule_of_rating rating).
  { unfold select_rule, response_rules, rule_of_rating.
    destruct (decide (rating = 1%Z)) as [-> | H1]; [reflexivity |].
    destruct (decide (rating = 2%Z)) as [-> | H2]; [reflexivity |].
    destruct (decide (rating = 3%Z)) as [-> | H3]; [reflexivity |].
    destruct (decide (rating = 4%Z)) as [-> | H4]; [reflexivity |].
    destruct (decide (rating = 5%Z)) as [-> | H5]; [reflexivity |].
    rewrite !lookup_insert_ne, lookup_empty by congruence.
    apply Z.eqb_neq in H1, H2, H4, H5. rewrite H1, H2, H4, H5. reflexivity. }
  repeat split; try reflexivity; [exact Htable |].
  intros Hout. rewrite Htable. unfold rule_of_rating.
  assert (H1 : (rating =? 1)%Z = false) by (apply Z.eqb_neq; lia).
  assert (H2 : (rating =? 2)%Z = false) by (apply Z.eqb_neq; lia).
  assert (H4 : (rating =? 4)%Z = false) by (apply Z.eqb_neq; lia).
  assert (H5 : (rating =? 5)%Z = false) by (apply Z.eqb_neq; lia).
  rewrite H1, H2, H4, H5. reflexivity.
Qed.

(** A rating of 9 stars falls back to the default. *)
Lemma select_rule_table_witness : select_rule 9 = neutral_improvement.
Proof.
  destruct (select_rule_table 9) as [_ [_ [_ [_ [_ [_ [_ [_ Hdefault]]]]]]]].
  apply Hdefault. right. lia.
Defined.

Section WithRuntime.
Context `{Runtime}.

(** The chain of tests of [detect_language] is the scan of the ordered
    table. *)
Lemma detect_language_first_match (text : pystr) :
  detect_language text = first_match (lower text).
Proof.
  unfold detect_language, first_match, language_table. cbn [find snd].
  destruct (any_word_in (lower text) turkish_words); [reflexivity |].
  destruct (any_word_in (lower text) spanish_words); [reflexivity |].
  destruct (any_word_in (lower text) french_words); [reflexivity |].
  destruct (any_word_in (lower text) german_words); [reflexivity |].
  destruct (any_word_in (lower text) russian_words); [reflexivity |].
  destruct (any_word_in (lower text) indonesian_words); [reflexivity |].
  destruct (any_word_in (lower text) persian_words); reflexivity.
Qed.

(** C7 (amended).  The detector of [src/ai_response.py] is a total
    function into the eight codes: it returns the first language, in the
    order tr, es, fr, de, ru, id, fa, one of whose keywords occurs in the
    lowered text, and [en] when there is none; so the empty text gives
    [en], and a text with a Turkish keyword gives [tr] whatever other
    keywords it has.  The detector of [src/backend/ai_response.py] is a
    total function too, but knows two codes only: [tr] when the text has
    one of the Turkish letters of [turkish_indicators], [en] otherwise. *)
Theorem detect_language_priority (text : pystr) :
  detect_language text = first_match (lower text) /\
  In (code (detect_language text))
     [py "en"; py "tr"; py "es"; py "fr"; py "de"; py "ru"; py "id"; py "fa"] /\
  (any_word_in (lower text) turkish_words = true -> detect_language text = Tr) /\
  detect_language (py "") = En /\
  detect_language (py "çok güzel") = Tr /\
  detect_language (py "muy bueno") = Es /\
  BackendAiResponse.detect_language text
  = (if existsb (has_char text) BackendAiResponse.turkish_indicators then Tr else En).
Proof.
  split; [apply detect_language_first_match |].
  split; [destruct (detect_language text); simpl; tauto |].
  split.
  { intros Htr. unfold detect_language. rewrite Htr. reflexivity. }
  split; [vm_compute; reflexivity |].
  split; [vm_compute; reflexivity |].
  split; [vm_compute; reflexivity |].
  unfold BackendAiResponse.detect_language.
  destruct (existsb (has_char text) BackendAiResponse.turkish_indicators);
    [reflexivity |].
  destruct (existsb _ BackendAiResponse.english_words); reflexivity.
Qed.

End WithRuntime.

#[local] Existing Instance Fixtures.plain_runtime.

(** C7, as stated, fails on the backend detector: a text with a Turkish and
    a Spanish keyword, and a Spanish text, both come out as [en]. *)
Lemma backend_detector_ignores_keywords :
  any_word_in (lower (py "harika, muy bueno")) turkish_words = true /\
  any_word_in (lower (py "harika, muy bueno")) spanish_words = true /\
  BackendAiResponse.detect_language (py "harika, muy bueno") = En /\
  BackendAiResponse.detect_language (py "muy bueno") = En.
Proof. vm_compute. repeat split; reflexivity. Qed.

(** The same text on the detector of [src/ai_response.py]: Turkish wins. *)
Lemma detect_language_priority_witness :
  detect_language (py "harika, muy bueno") = Tr.
Proof.
  destruct (detect_language_priority (py "harika, muy bueno"))
    as [_ [_ [Htr _]]].
  apply Htr. vm_compute. reflexivity.
Defined.

End DetectorFacts.

(** ** The monad and the generators *)

Module EffectFacts.
Import Py Effects.

(** A loop over a concatenation runs the first part, then the second. *)
Lemma for_each_app {H A B} (body : B -> A -> M H B) (xs ys : list A) :
  forall (acc : B) (s : state H),
    for_each body acc (xs ++ ys) s =
      match for_each body acc xs s with
      | (Ok acc', s') => for_each body acc' ys s'
      | (Raise e, s') => (Raise e, s')
      end.
Proof.
  induction xs as [|x xs IH]; intros acc s; simpl.
  - reflexivity.
  - unfold bind. destruct (body acc x s) as [[acc' | e] s1].
    + apply IH.
    + reflexivity.
Qed.

End EffectFacts.

Module GeneratorFacts.
Import Py Effects AiResponse Spec Orchestration PyFacts ValidatorFacts.

Ltac run_monad :=
  cbv [generate_response BackendAiResponse.generate_response try_except bind
       external ret raise _log_reply now modify_heap log_reply_call].

Section WithRuntime.
Context `{Runtime}.

Lemma validated_nonempty (response : pystr) (l : language) (v : pystr) :
  _validate_response response l = Some v -> v <> [].
Proof.
  intros Hv Hnil. rewrite validate_unfold in Hv.
  destruct (negb (truthy response)); [discriminate |].
  destruct (existsb _ forbidden_words); [discriminate |].
  destruct (length (strip (truncated response)) <? 10)%nat eqn:Hshort;
    [discriminate |].
  injection Hv as Hv. rewrite Hv, Hnil in Hshort. discriminate.
Qed.

Variable self : AIResponseGenerator.

(** No credential: no text, and nothing happens. *)
Lemma generate_response_unconfigured review_text rating review_id s :
  gemini_client self = None ->
  generate_response self review_text rating review_id s = (Ok None, s).
Proof. intros Hnone. unfold generate_response. rewrite Hnone. reflexivity. Qed.

(** The model call raises: the exception is swallowed, no text. *)
Lemma generate_response_model_raises client review_text rating review_id s e :
  gemini_client self = Some client ->
  client (clock s) (request self review_text rating) = Raise e ->
  generate_response self review_text rating review_id s = (Ok None, listed s).
Proof.
  intros Hclient Hraise. run_monad. rewrite Hclient, Hraise. reflexivity.
Qed.

(** The validator rejects the text of the model: no text either. *)
Lemma generate_response_rejected client review_text rating review_id s raw :
  gemini_client self = Some client ->
  client (clock s) (request self review_text rating) = Ok raw ->
  _validate_response (strip raw) (detect_language review_text) = None ->
  generate_response self review_text rating review_id s = (Ok None, listed s).
Proof.
  intros Hclient Hraw Hreject. run_monad. rewrite Hclient, Hraw, Hreject.
  reflexivity.
Qed.

(** The validator accepts: the validated text, logged in the history. *)
Lemma generate_response_validated client review_text rating review_id s raw v :
  gemini_client self = Some client ->
  client (clock s) (request self review_text rating) = Ok raw ->
  _validate_response (strip raw) (detect_language review_text) = Some v ->
  exists s', generate_response self review_text rating review_id s = (Ok (Some v), s')
             /\ reply_calls s' = reply_calls s.
Proof.
  intros Hclient Hraw Hvalid. pose proof (validated_nonempty _ _ _ Hvalid) as Hne.
  run_monad. rewrite Hclient, Hraw, Hvalid.
  destruct v as [|c v]; [congruence |].
  eexists. split; reflexivity.
Qed.

(** [generate_response] never raises and never calls the storefront. *)
Lemma generate_response_returns review_text rating review_id s :
  exists o s', generate_response self review_text rating review_id s = (Ok o, s')
               /\ reply_calls s' = reply_calls s.
Proof.
  destruct (gemini_client self) as [client |] eqn:Hclient.
  - destruct (client (clock s) (request self review_text rating)) as [raw | e] eqn:Hraw.
    + destruct (_validate_response (strip raw) (detect_language review_text))
        as [v |] eqn:Hvalid.
      * destruct (generate_response_validated _ _ _ review_id _ _ _ Hclient Hraw Hvalid)
          as [s' [Hg Hcalls]]. eauto.
      * rewrite (generate_response_rejected _ _ _ review_id _ _ Hclient Hraw Hvalid).
        eexists _, _. split; reflexivity.
    + rewrite (generate_response_model_raises _ _ _ review_id _ _ Hclient Hraw).
      eexists _, _. split; reflexivity.
  - rewrite generate_response_unconfigured by exact Hclient.
    eexists _, _. split; reflexivity.
Qed.

Lemma generate_response_reply_calls review_text rating review_id s x s' :
  generate_response self review_text rating review_id s = (x, s') ->
  reply_calls s' = reply_calls s.
Proof.
  intros Hg. destruct (generate_response_returns review_text rating review_id s)
    as [o [s1 [Hg1 Hcalls]]]. congruence.
Qed.

(** A text comes back only when the model answered and the validator
    accepted the stripped answer. *)
Lemma generate_response_some review_text rating review_id s v s' :
  generate_response self review_text rating review_id s = (Ok (Some v), s') ->
  v <> [] /\
  exists client raw,
    gemini_client self = Some client /\
    client (clock s) (request self review_text rating) = Ok raw /\
    _validate_response (strip raw) (detect_language review_text) = Some v.
Proof.
  intros Hg.
  destruct (gemini_client self) as [client |] eqn:Hclient.
  - destruct (client (clock s) (request self review_text rating)) as [raw | e] eqn:Hraw.
    + destruct (_validate_response (strip raw) (detect_language review_text))
        as [v' |] eqn:Hvalid.
      * destruct (generate_response_validated _ _ _ review_id _ _ _ Hclient Hraw Hvalid)
          as [s1 [Hg1 _]].
        assert (v' = v) as -> by congruence.
        split; [eapply validated_nonempty, Hvalid | eauto].
      * rewrite (generate_response_rejected _ _ _ review_id _ _ Hclient Hraw Hvalid) in Hg.
        discriminate.
    + rewrite (generate_response_model_raises _ _ _ review_id _ _ Hclient Hraw) in Hg.
      discriminate.
  - rewrite generate_response_unconfigured in Hg by exact Hclient. discriminate.
Qed.

End WithRuntime.

Section Backend.
Context `{Runtime}.
Import BackendAiResponse.

(** The backend generator never raises and never calls the storefront. *)
Lemma backend_generate_response_returns (self : AIResponseGenerator)
    review_text rating review_id s :
  exists o s', generate_response self review_text rating review_id s = (Ok o, s')
               /\ reply_calls s' = reply_calls s.
Proof.
  run_monad. destruct (negb (has_api_key self)).
  - eexists _, _. split; reflexivity.
  - destruct (model_of self (clock s) _) as [text | e].
    + destruct (truthy text); eexists _, _; split; reflexivity.
    + eexists _, _. split; reflexivity.
Qed.

End Backend.

End GeneratorFacts.

(** ** The orchestrator of [src/reviews.py] *)

Module CliFacts.
Import Py Effects AiResponse Reviews Spec Orchestration Orchestration.Cli.
Import PyFacts EffectFacts GeneratorFacts.

Lemma details_record_outcome results o :
  details (record_outcome results o) = (fun l => l ++ [snd o]) <$> details results.
Proof. destruct o as [[] d]; reflexivity. Qed.

Lemma details_tally os : forall results,
  details (tally results os) = (fun l => l ++ map snd os) <$> details results.
Proof.
  induction os as [|o os IH]; intros results.
  - change (tally results []) with results.
    destruct (details results); simpl; [rewrite app_nil_r |]; reflexivity.
  - change (tally results (o :: os)) with (tally (record_outcome results o) os).
    rewrite IH, details_record_outcome.
    destruct (details results); simpl; [rewrite <- app_assoc |]; reflexivity.
Qed.

Lemma details_tally_empty os :
  default [] (details (tally empty_results os)) = map snd os.
Proof. rewrite details_tally. reflexivity. Qed.

Lemma counters_tally os : forall results,
  processed (tally results os) = (processed results + length os)%nat /\
  successful (tally results os) = (successful results + count Successful os)%nat /\
  failed (tally results os) = (failed results + count Failed os)%nat /\
  skipped (tally results os) = (skipped results + count Skipped os)%nat.
Proof.
  induction os as [|[k d] os IH]; intros results.
  - unfold count. simpl. repeat split; lia.
  - specialize (IH (record_outcome results (k, d))).
    destruct IH as [Hp [Hs [Hf Hk]]].
    change (tally results ((k, d) :: os))
      with (tally (record_outcome results (k, d)) os).
    rewrite Hp, Hs, Hf, Hk. unfold count. destruct k; simpl; repeat split; lia.
Qed.

Lemma count_total os :
  (count Successful os + count Failed os + count Skipped os = length os)%nat.
Proof.
  unfold count. induction os as [|[[] d] os IH]; simpl in *; lia.
Qed.

Section WithRuntime.
Context `{Runtime}.
Variables (self : GooglePlayReviews) (generator : AIResponseGenerator)
          (dry_run : bool).

(** [reply_to_review] hands the text to the storefront once, then returns
    [True] or raises. *)
Lemma reply_to_review_cases review_id text s :
  exists s', reply_calls s' = reply_calls s ++ [(review_id, text)] /\
    (reply_to_review self review_id text s = (Ok true, s') \/
     exists e, reply_to_review self review_id text s = (Raise e, s')).
Proof.
  exists (mk_state (S (clock s)) (reply_calls s ++ [(review_id, text)]) (heap s)).
  split; [reflexivity |].
  cbv [reply_to_review try_except bind external ret raise log_reply_call].
  cbn [clock reply_calls heap].
  destruct (reviews_reply (service_of self) (clock s) review_id text)
    as [[] | [resp c | m]]; eauto.
Qed.

(** One iteration of the loop takes one transition of the state machine
    and records it. *)
Lemma process_review_outcome results r s :
  exists k d s',
    outcome self generator dry_run r s k d s' /\
    process_review self generator dry_run results r s
    = (Ok (record_outcome results (k, d)), s').
Proof.
  unfold process_review. destruct (hasReply r) eqn:Hreply.
  { eexists _, _, _. split; [apply skip_has_reply; exact Hreply | reflexivity]. }
  destruct (negb (truthy (userComment r)) || eqb_str (strip (userComment r)) (py ""))
    eqn:Hblank.
  { apply strip_nil_iff in Hblank. eexists _, _, _.
    split; [apply skip_no_comment; assumption | reflexivity]. }
  assert (Htext : strip (userComment r) <> []).
  { intros Hnil. apply strip_nil_iff in Hnil. congruence. }
  destruct (generate_response_returns generator (userComment r) (rating r)
              (reviewId r) s) as [o [s1 [Hg _]]].
  unfold try_except, bind. rewrite Hg.
  destruct o as [[|c v] |].
  - eexists _, _, _.
    split; [eapply generation_failed; eauto | reflexivity].
  - destruct dry_run eqn:Hdry.
    + eexists _, _, _.
      split; [eapply previewed; eauto; discriminate | reflexivity].
    + destruct (reply_to_review self (reviewId r) (c :: v) s1)
        as [[[] | e] s2] eqn:Hpost.
      * eexists _, _, _.
        split; [eapply dispatched; eauto; discriminate | reflexivity].
      * eexists _, _, _.
        split; [eapply dispatch_refused; eauto; discriminate | reflexivity].
      * eexists _, _, _.
        split; [eapply dispatch_raised; eauto; discriminate | reflexivity].
  - eexists _, _, _.
    split; [eapply generation_failed; eauto | reflexivity].
Qed.

(** The loop takes the transitions of its reviews one after the other;
    it never raises. *)
Lemma for_each_run rs : forall results s,
  exists os s',
    run self generator dry_run rs s os s' /\
    for_each (process_review self generator dry_run) results rs s
    = (Ok (tally results os), s').
Proof.
  induction rs as [|r rs IH]; intros results s.
  - exists [], s. split; [constructor | reflexivity].
  - destruct (process_review_outcome results r s) as [k [d [s1 [Hstep Hbody]]]].
    destruct (IH (record_outcome results (k, d)) s1) as [os [s2 [Hrun Hloop]]].
    exists ((k, d) :: os), s2. split; [econstructor; eassumption |].
    simpl. unfold bind. rewrite Hbody. exact Hloop.
Qed.

Lemma run_length rs s os s' :
  run self generator dry_run rs s os s' -> length os = length rs.
Proof. induction 1; simpl; congruence. Qed.

Lemma run_app pre post s os1 s1 os2 s2 :
  run self generator dry_run pre s os1 s1 ->
  run self generator dry_run post s1 os2 s2 ->
  run self generator dry_run (pre ++ post) s (os1 ++ os2) s2.
Proof.
  induction 1; intros Hpost; simpl; [exact Hpost |].
  econstructor; eauto.
Qed.

(** What holds of every transition holds of every review of a batch and
    its entry. *)
Lemma run_Forall2 (P : review -> detail -> Prop) rs s os s' :
  (forall r s k d s', outcome self generator dry_run r s k d s' -> P r d) ->
  run self generator dry_run rs s os s' ->
  Forall2 P rs (map snd os).
Proof.
  intros HP. induction 1; simpl; constructor; eauto.
Qed.

(** The run on a listed batch, cut at one of its reviews. *)
Lemma auto_reply_split max_results pre r post s :
  enable_ai self = true ->
  ai_generator self = Some generator ->
  reviews_list (service_of self) (clock s) max_results = Ok (pre ++ r :: post) ->
  exists os_pre k d s2 os_post s',
    run self generator dry_run pre (listed s) os_pre
        (state_before self generator dry_run pre s) /\
    outcome self generator dry_run r (state_before self generator dry_run pre s) k d s2 /\
    run self generator dry_run post s2 os_post s' /\
    auto_reply_to_reviews self max_results dry_run s
    = (Ok (tally empty_results (os_pre ++ (k, d) :: os_post)), s').
Proof.
  intros Hai Hgen Hlist.
  destruct (for_each_run pre empty_results (listed s)) as [os_pre [s1 [Hpre Hloop1]]].
  assert (Hs1 : state_before self generator dry_run pre s = s1)
    by (unfold state_before; rewrite Hloop1; reflexivity).
  destruct (process_review_outcome (tally empty_results os_pre) r s1)
    as [k [d [s2 [Hstep Hbody]]]].
  destruct (for_each_run post (record_outcome (tally empty_results os_pre) (k, d)) s2)
    as [os_post [s' [Hpost Hloop2]]].
  exists os_pre, k, d, s2, os_post, s'. rewrite Hs1.
  repeat (split; [assumption |]).
  unfold auto_reply_to_reviews. rewrite Hai, Hgen.
  cbv [try_except bind list_reviews external]. fold (listed s). rewrite Hlist.
  destruct (pre ++ r :: post) as [|r0 rs0] eqn:Hrs.
  { destruct pre; discriminate. }
  rewrite <- Hrs, for_each_app, Hloop1. simpl for_each. unfold bind.
  rewrite Hbody, Hloop2. unfold tally. rewrite fold_left_app. reflexivity.
Qed.

(** The run on any listed batch. *)
Lemma auto_reply_run max_results rs s :
  enable_ai self = true ->
  ai_generator self = Some generator ->
  reviews_list (service_of self) (clock s) max_results = Ok rs ->
  exists os s' res,
    run self generator dry_run rs (listed s) os s' /\
    auto_reply_to_reviews self max_results dry_run s = (Ok res, s') /\
    default [] (details res) = map snd os /\
    processed res = length rs /\
    successful res = count Successful os /\
    failed res = count Failed os /\
    skipped res = count Skipped os.
Proof.
  intros Hai Hgen Hlist.
  destruct (for_each_run rs empty_results (listed s)) as [os [s' [Hrun Hloop]]].
  unfold auto_reply_to_reviews. rewrite Hai, Hgen.
  cbv [try_except bind list_reviews external]. fold (listed s). rewrite Hlist.
  destruct rs as [|r rs].
  - inversion Hrun; subst. eexists [], _, _.
    split; [constructor |]. split; [reflexivity |]. repeat split.
  - rewrite Hloop. exists os, s', (tally empty_results os).
    split; [exact Hrun |]. split; [reflexivity |].
    rewrite details_tally. split; [reflexivity |].
    destruct (counters_tally os empty_results) as [Hp [Hs [Hf Hk]]].
    rewrite Hp, Hs, Hf, Hk, (run_length _ _ _ _ Hrun). repeat split.
Qed.

End WithRuntime.

End CliFacts.

(** ** The orchestrator of [src/backend/reviews.py] *)

Module BackendFacts.
Import Py Effects BackendAiResponse BackendReviews Orchestration Orchestration.Backend.
Import PyFacts EffectFacts GeneratorFacts.

Section WithRuntime.
Context `{Runtime}.
Variables (self : GooglePlayReviews) (generator : AIResponseGenerator)
          (dry_run : bool).

(** One iteration takes one transition and appends its entry. *)
Lemma backend_process_review_outcome results r s :
  exists d s',
    outcome self generator dry_run r s d s' /\
    process_review self generator dry_run results r s = (Ok (results ++ [d]), s').
Proof.
  unfold process_review. destruct (hasReply r) eqn:Hreply.
  { eexists _, _. split; [apply skip_has_reply; exact Hreply | reflexivity]. }
  destruct (5 <=? rating r)%Z eqn:Hstars.
  { apply Z.leb_le in Hstars. eexists _, _.
    split; [apply skip_five_stars; assumption | reflexivity]. }
  apply Z.leb_gt in Hstars.
  destruct (backend_generate_response_returns generator (userComment r) (rating r)
              (reviewId r) s) as [o [s1 [Hg _]]].
  unfold try_except, bind. rewrite Hg.
  destruct o as [[|c v] |].
  - eexists _, _.
    split; [eapply generation_failed; eauto | reflexivity].
  - destruct dry_run eqn:Hdry; cbn [negb].
    + eexists _, _.
      split; [eapply previewed; eauto; discriminate | reflexivity].
    + destruct (reply_to_review self (reviewId r) (c :: v) s1)
        as [[success | e] s2] eqn:Hpost.
      * eexists _, _.
        split; [eapply dispatched; eauto; discriminate | reflexivity].
      * eexists _, _.
        split; [eapply dispatch_raised; eauto; discriminate | reflexivity].
  - eexists _, _.
    split; [eapply generation_failed; eauto | reflexivity].
Qed.

Lemma backend_for_each_run rs : forall results s,
  exists ds s',
    run self generator dry_run rs s ds s' /\
    for_each (process_review self generator dry_run) results rs s
    = (Ok (results ++ ds), s').
Proof.
  induction rs as [|r rs IH]; intros results s.
  - exists [], s. split; [constructor | simpl; rewrite app_nil_r; reflexivity].
  - destruct (backend_process_review_outcome results r s) as [d [s1 [Hstep Hbody]]].
    destruct (IH (results ++ [d]) s1) as [ds [s2 [Hrun Hloop]]].
    exists (d :: ds), s2. split; [econstructor; eassumption |].
    simpl. unfold bind. rewrite Hbody, Hloop, <- app_assoc. reflexivity.
Qed.

Lemma backend_run_length rs s ds s' :
  run self generator dry_run rs s ds s' -> length ds = length rs.
Proof. induction 1; simpl; congruence. Qed.

Lemma backend_run_Forall2 (P : review -> detail -> Prop) rs s ds s' :
  (forall r s d s', outcome self generator dry_run r s d s' -> P r d) ->
  run self generator dry_run rs s ds s' ->
  Forall2 P rs ds.
Proof.
  intros HP. induction 1; constructor; eauto.
Qed.

(** The backend run on a listed batch, cut at one of its reviews. *)
Lemma backend_auto_reply_split max_results pre r post s :
  enable_ai self = true ->
  ai_generator self = Some generator ->
  reviews_list (service_of self) (clock s) max_results = Ok (pre ++ r :: post) ->
  exists ds_pre d s2 ds_post s',
    run self generator dry_run pre (listed s) ds_pre
        (state_before self generator dry_run pre s) /\
    outcome self generator dry_run r (state_before self generator dry_run pre s) d s2 /\
    run self generator dry_run post s2 ds_post s' /\
    auto_reply_to_reviews self max_results dry_run s
    = (Ok (ds_pre ++ d :: ds_post), s').
Proof.
  intros Hai Hgen Hlist.
  destruct (backend_for_each_run pre [] (listed s)) as [ds_pre [s1 [Hpre Hloop1]]].
  assert (Hs1 : state_before self generator dry_run pre s = s1)
    by (unfold state_before; rewrite Hloop1; reflexivity).
  change ([] ++ ds_pre) with ds_pre in Hloop1.
  destruct (backend_process_review_outcome ds_pre r s1)
    as [d [s2 [Hstep Hbody]]].
  destruct (backend_for_each_run post (ds_pre ++ [d]) s2)
    as [ds_post [s' [Hpost Hloop2]]].
  exists ds_pre, d, s2, ds_post, s'. rewrite Hs1.
  repeat (split; [assumption |]).
  unfold auto_reply_to_reviews. rewrite Hai, Hgen.
  cbv [try_except bind list_reviews external]. fold (listed s). rewrite Hlist.
  rewrite for_each_app, Hloop1. simpl for_each. unfold bind.
  rewrite Hbody, Hloop2, <- app_assoc. reflexivity.
Qed.

(** The backend run on any listed batch. *)
Lemma backend_auto_reply_run max_results rs s :
  enable_ai self = true ->
  ai_generator self = Some generator ->
  reviews_list (service_of self) (clock s) max_results = Ok rs ->
  exists ds s',
    run self generator dry_run rs (listed s) ds s' /\
    auto_reply_to_reviews self max_results dry_run s = (Ok ds, s').
Proof.
  intros Hai Hgen Hlist.
  destruct (backend_for_each_run rs [] (listed s)) as [ds [s' [Hrun Hloop]]].
  change ([] ++ ds) with ds in Hloop.
  exists ds, s'. split; [exact Hrun |].
  unfold auto_reply_to_reviews. rewrite Hai, Hgen.
  cbv [try_except bind list_reviews external]. fold (listed s). rewrite Hlist.
  rewrite Hloop. reflexivity.
Qed.

End WithRuntime.

End BackendFacts.

(** ** The claims about the orchestrators *)

Module OrchestratorFacts.
Import Py Effects Spec Orchestration.
Import PyFacts EffectFacts GeneratorFacts.

(** Two different literals are different strings. *)
Ltac literals_differ :=
  match goal with
  | Heq : py _ = py _ |- _ => vm_compute in Heq; discriminate Heq
  end.

Lemma lookup_outcome {A B} (f : A -> B) (xs : list A) (x : A) (ys : list A) (n : nat) :
  length xs = n -> map f (xs ++ x :: ys) !! n = Some (f x).
Proof.
  intros Hn. rewrite map_app. simpl.
  apply list_lookup_middle. rewrite length_map. congruence.
Qed.

Section Cli.
Import AiResponse Reviews Orchestration.Cli CliFacts.
Context `{Runtime}.
Variables (self : GooglePlayReviews) (generator : AIResponseGenerator).

Lemma outcome_review_id dry_run r s k d s' :
  outcome self generator dry_run r s k d s' -> review_id d = reviewId r.
Proof. destruct 1; reflexivity. Qed.

(** An entry is ["skipped"] exactly on the two skip transitions. *)
Lemma outcome_skipped_iff dry_run r s k d s' :
  outcome self generator dry_run r s k d s' ->
  (status d = py "skipped" <-> hasReply r = true \/ strip (userComment r) = []).
Proof.
  destruct 1; cbn [status]; split; intros Hs;
    try (left; assumption); try (right; assumption); try reflexivity;
    try literals_differ; destruct Hs; congruence.
Qed.

(** In dry-run mode no transition reaches the storefront, and the
    successful ones are the previews. *)
Lemma outcome_preview dry_run r s k d s' :
  outcome self generator dry_run r s k d s' ->
  dry_run = true ->
  reply_calls s' = reply_calls s /\
  kind_eqb k Successful = eqb_str (status d) (py "dry_run_success").
Proof.
  destruct 1; intros Hdry; try congruence;
    (split; [| vm_compute; reflexivity]);
    try reflexivity; eapply generate_response_reply_calls; eassumption.
Qed.

Lemma run_preview dry_run rs s os s' :
  run self generator dry_run rs s os s' ->
  dry_run = true ->
  reply_calls s' = reply_calls s /\
  count Successful os
  = length (List.filter (fun d => eqb_str (status d) (py "dry_run_success"))
                        (map snd os)).
Proof.
  induction 1 as [s | r rs s k d s1 os s2 Hstep Hrun IH]; intros Hdry.
  - split; reflexivity.
  - destruct (outcome_preview _ _ _ _ _ _ Hstep Hdry) as [Hcalls Hkind].
    destruct (IH Hdry) as [Hcalls' Hcount]. split; [congruence |].
    unfold count in *. cbn [List.filter map fst snd]. rewrite Hkind.
    destruct (eqb_str (status d) (py "dry_run_success")); simpl; congruence.
Qed.

(** Without a model client every review is skipped or fails in
    generation. *)
Lemma outcome_unconfigured dry_run r s k d s' :
  gemini_client generator = None ->
  outcome self generator dry_run r s k d s' ->
  status d = py "skipped" \/
  (status d = py "failed" /\ reason d = Some (py "ai_generation_failed")).
Proof.
  intros Hnone Hstep.
  destruct Hstep as [ | | o s1 ? ? Hg ? | v s1 ? ? Hg | v s1 s2 ? ? Hg
                    | v s1 s2 ? ? Hg | v s1 e s2 ? ? Hg ];
    try (left; reflexivity); try (right; split; reflexivity);
    rewrite generate_response_unconfigured in Hg by exact Hnone; discriminate.
Qed.

Lemma run_unconfigured_reply_calls dry_run rs s os s' :
  gemini_client generator = None ->
  run self generator dry_run rs s os s' ->
  reply_calls s' = reply_calls s.
Proof.
  intros Hnone. induction 1 as [s | r rs s k d s1 os s2 Hstep Hrun IH];
    [reflexivity |].
  rewrite IH.
  destruct Hstep as [ | | o s1 ? ? Hg ? | v s1 ? ? Hg | v s1 s3 ? ? Hg
                    | v s1 s3 ? ? Hg | v s1 e s3 ? ? Hg ];
    try reflexivity;
    try (eapply generate_response_reply_calls; eassumption);
    rewrite generate_response_unconfigured in Hg by exact Hnone; discriminate.
Qed.

End Cli.

Section Backend.
Import BackendAiResponse BackendReviews Orchestration.Backend BackendFacts.
Context `{Runtime}.
Variables (self : GooglePlayReviews) (generator : AIResponseGenerator).

Lemma backend_outcome_review_id dry_run r s d s' :
  outcome self generator dry_run r s d s' -> review_id d = reviewId r.
Proof. destruct 1; reflexivity. Qed.

(** The backend skips on an existing reply or on five stars and more. *)
Lemma backend_outcome_skipped_iff dry_run r s d s' :
  outcome self generator dry_run r s d s' ->
  (status d = py "skipped" <-> hasReply r = true \/ (5 <= rating r)%Z).
Proof.
  destruct 1 as [ | | | | v s1 success s2 | ]; cbn [status]; split; intros Hs;
    try (left; assumption); try (right; assumption); try reflexivity;
    try literals_differ;
    try (destruct success; literals_differ);
    destruct Hs; try congruence; lia.
Qed.

Lemma backend_outcome_preview r s d s' :
  outcome self generator true r s d s' -> reply_calls s' = reply_calls s.
Proof.
  intros Hstep.
  destruct Hstep as [ | | o s1 ? ? Hg ? | v s1 ? ? Hg | v s1 success s2 ? ? Hg ? Hdry
                    | v s1 e s2 ? ? Hg ? Hdry ];
    try reflexivity; try discriminate Hdry;
    destruct (backend_generate_response_returns generator (userComment r)
                (rating r) (reviewId r) s) as [o' [s1' [Hg' Hcalls]]];
    congruence.
Qed.

Lemma backend_run_preview rs s ds s' :
  run self generator true rs s ds s' -> reply_calls s' = reply_calls s.
Proof.
  induction 1 as [s | r rs s d s1 ds s2 Hstep Hrun IH]; [reflexivity |].
  rewrite IH. eapply backend_outcome_preview, Hstep.
Qed.

End Backend.

End OrchestratorFacts.

Module OrchestratorClaims.
Import Py Effects Spec Orchestration.
Import PyFacts EffectFacts GeneratorFacts OrchestratorFacts.

Section WithRuntime.
Context `{Runtime}.

(** C1 (amended).  In the orchestrator of [src/reviews.py] a review of the
    batch comes out as skipped if and only if it already has a developer
    reply or its text is empty or blank, whatever its rating.  In the
    orchestrator of [src/backend/reviews.py] a review that already has a
    developer reply or whose rating is 5 or more comes out as skipped, and
    a review without reply, with a rating below 5 and with a text that is
    not blank does not. *)
Theorem skip_rule
    (self : Reviews.GooglePlayReviews)
    (generator : AiResponse.AIResponseGenerator)
    (bself : BackendReviews.GooglePlayReviews)
    (bgenerator : BackendAiResponse.AIResponseGenerator)
    (max_results : Z) (dry_run : bool) (rs : list review)
    (s : state AiResponse.history) (bs : state BackendAiResponse.heap) :
  Reviews.enable_ai self = true ->
  Reviews.ai_generator self = Some generator ->
  reviews_list (Reviews.service_of self) (clock s) max_results = Ok rs ->
  BackendReviews.enable_ai bself = true ->
  BackendReviews.ai_generator bself = Some bgenerator ->
  reviews_list (BackendReviews.service_of bself) (clock bs) max_results = Ok rs ->
  (exists res s',
      Reviews.auto_reply_to_reviews self max_results dry_run s = (Ok res, s') /\
      Forall2 (fun r d =>
                 Reviews.review_id d = reviewId r /\
                 (Reviews.status d = py "skipped" <->
                  hasReply r = true \/ strip (userComment r) = []))
              rs (default [] (Reviews.details res))) /\
  (exists ds bs',
      BackendReviews.auto_reply_to_reviews bself max_results dry_run bs = (Ok ds, bs') /\
      Forall2 (fun r d =>
                 BackendReviews.review_id d = reviewId r /\
                 (hasReply r = true \/ (5 <= rating r)%Z ->
                  BackendReviews.status d = py "skipped") /\
                 (hasReply r = false -> (rating r < 5)%Z ->
                  strip (userComment r) <> [] ->
                  BackendReviews.status d <> py "skipped"))
              rs ds).
Proof.
  intros Hai Hgen Hlist Hbai Hbgen Hblist. split.
  - destruct (CliFacts.auto_reply_run self generator dry_run max_results rs s
                Hai Hgen Hlist) as [os [s' [res [Hrun [Heq [Hdetails _]]]]]].
    exists res, s'. split; [exact Heq |]. rewrite Hdetails.
    eapply CliFacts.run_Forall2; [| exact Hrun].
    intros r s0 k d s1 Hstep. split.
    + eapply outcome_review_id, Hstep.
    + eapply outcome_skipped_iff, Hstep.
  - destruct (BackendFacts.backend_auto_reply_run bself bgenerator dry_run max_results
                rs bs Hbai Hbgen Hblist) as [ds [bs' [Hrun Heq]]].
    exists ds, bs'. split; [exact Heq |].
    eapply BackendFacts.backend_run_Forall2; [| exact Hrun].
    intros r s0 d s1 Hstep.
    pose proof (backend_outcome_skipped_iff _ _ _ _ _ _ _ Hstep) as [Hto Hfrom].
    split; [eapply backend_outcome_review_id, Hstep |].
    split; [exact Hfrom |].
    intros Hreply Hstars _ Hskipped.
    destruct (Hto Hskipped) as [Hr | Hs]; [congruence | lia].
Qed.

(** The entry of a review for which generation gives no text. *)
Lemma failed_generation_entry
    (self : Reviews.GooglePlayReviews)
    (generator : AiResponse.AIResponseGenerator)
    (max_results : Z) (dry_run : bool) (pre : list review) (r : review)
    (post : list review) (s : state AiResponse.history) :
  Reviews.enable_ai self = true ->
  Reviews.ai_generator self = Some generator ->
  reviews_list (Reviews.service_of self) (clock s) max_results
    = Ok (pre ++ r :: post) ->
  hasReply r = false ->
  strip (userComment r) <> [] ->
  fst (AiResponse.generate_response generator (userComment r) (rating r)
         (reviewId r) (Cli.state_before self generator dry_run pre s)) = Ok None ->
  exists res s' ds,
    Reviews.auto_reply_to_reviews self max_results dry_run s = (Ok res, s') /\
    Reviews.details res = Some ds /\
    ds !! length pre
    = Some (Reviews.mk_detail (reviewId r) (py "failed")
                              (Some (py "ai_generation_failed")) None).
Proof.
  intros Hai Hgen Hlist Hreply Htext Hnone.
  destruct (CliFacts.auto_reply_split self generator dry_run max_results pre r post s
              Hai Hgen Hlist)
    as [os_pre [k [d [s2 [os_post [s' [Hpre [Hstep [Hpost Heq]]]]]]]]].
  eexists _, s', _. split; [exact Heq |].
  split; [rewrite CliFacts.details_tally; reflexivity |].
  cbn [app].
  rewrite (lookup_outcome snd os_pre (k, d) os_post _
             (CliFacts.run_length _ _ _ _ _ _ _ Hpre)).
  cbn [snd].
  destruct Hstep as [ | | o s1 ? ? Hg ? | v s1 ? ? Hg | v s1 s3 ? ? Hg
                    | v s1 s3 ? ? Hg | v s1 e s3 ? ? Hg ];
    try congruence; try reflexivity;
    rewrite Hg in Hnone; discriminate Hnone.
Qed.

(** C4 (amended).  Failures stay with their review.  The run on a listed
    batch of N reviews always returns a summary with N entries, one per
    review and in the order of the batch, whatever the model and the
    storefront do.  A review (without reply, with text) for which
    generation fails, that is [generate_response] gives no text, which
    includes a model call that raises, gets the entry failed with reason
    ["ai_generation_failed"]; one whose dispatch raises gets the entry
    failed with the message of the exception as its reason. *)
Theorem failures_are_isolated
    (self : Reviews.GooglePlayReviews)
    (generator : AiResponse.AIResponseGenerator)
    (max_results : Z) (dry_run : bool) (pre : list review) (r : review)
    (post : list review) (s : state AiResponse.history) :
  Reviews.enable_ai self = true ->
  Reviews.ai_generator self = Some generator ->
  reviews_list (Reviews.service_of self) (clock s) max_results
    = Ok (pre ++ r :: post) ->
  hasReply r = false ->
  strip (userComment r) <> [] ->
  let s_r := Cli.state_before self generator dry_run pre s in
  exists res s' ds,
    Reviews.auto_reply_to_reviews self max_results dry_run s = (Ok res, s') /\
    Reviews.details res = Some ds /\
    Forall2 (fun r d => Reviews.review_id d = reviewId r) (pre ++ r :: post) ds /\
    Reviews.processed res = length (pre ++ r :: post) /\
    (Reviews.successful res + Reviews.failed res + Reviews.skipped res
     = length (pre ++ r :: post))%nat /\
    (fst (AiResponse.generate_response generator (userComment r) (rating r)
            (reviewId r) s_r) = Ok None ->
     ds !! length pre
     = Some (Reviews.mk_detail (reviewId r) (py "failed")
                               (Some (py "ai_generation_failed")) None)) /\
    (forall v s1 e s2,
        AiResponse.generate_response generator (userComment r) (rating r)
          (reviewId r) s_r = (Ok (Some v), s1) ->
        dry_run = false ->
        Reviews.reply_to_review self (reviewId r) v s1 = (Raise e, s2) ->
        ds !! length pre
        = Some (Reviews.mk_detail (reviewId r) (py "failed") (Some (str_exn e)) None)).
Proof.
  intros Hai Hgen Hlist Hreply Htext s_r.
  destruct (CliFacts.auto_reply_split self generator dry_run max_results pre r post s
              Hai Hgen Hlist)
    as [os_pre [k [d [s2 [os_post [s' [Hpre [Hstep [Hpost Heq]]]]]]]]].
  fold s_r in Hpre, Hstep.
  set (os := os_pre ++ (k, d) :: os_post) in *.
  assert (Hrun : Cli.run self generator dry_run (pre ++ r :: post) (listed s) os s').
  { eapply CliFacts.run_app; [exact Hpre | econstructor; eassumption]. }
  exists (Cli.tally Cli.empty_results os), s', (map snd os).
  split; [exact Heq |].
  split; [rewrite CliFacts.details_tally; reflexivity |].
  split.
  { eapply CliFacts.run_Forall2; [| exact Hrun].
    intros r0 s0 k0 d0 s1 Hstep0. eapply outcome_review_id, Hstep0. }
  destruct (CliFacts.counters_tally os Cli.empty_results) as [Hp [Hs [Hf Hk]]].
  pose proof (CliFacts.run_length _ _ _ _ _ _ _ Hrun) as Hlen.
  pose proof (CliFacts.count_total os) as Htotal.
  split; [rewrite Hp; simpl; congruence |].
  split; [rewrite Hs, Hf, Hk; simpl; lia |].
  pose proof (CliFacts.run_length _ _ _ _ _ _ _ Hpre) as Hlen_pre.
  unfold os. rewrite (lookup_outcome snd os_pre (k, d) os_post _ Hlen_pre).
  cbn [snd]. split.
  - intros Hnone.
    destruct Hstep as [ | | o s1 ? ? Hg ? | v s1 ? ? Hg | v s1 s3 ? ? Hg
                      | v s1 s3 ? ? Hg | v s1 e s3 ? ? Hg ];
      try congruence; try reflexivity;
      rewrite Hg in Hnone; discriminate Hnone.
  - intros v s1 e s3 Hg Hdry Hraise.
    destruct Hstep as [ | | o s1' ? ? Hg' Ho | v' s1' ? ? Hg' ? Hdry'
                      | v' s1' s3' ? ? Hg' ? ? Hpost'
                      | v' s1' s3' ? ? Hg' ? ? Hpost'
                      | v' s1' e' s3' ? ? Hg' ? ? Hpost' ];
      try congruence.
    rewrite Hg in Hg'. injection Hg' as <- <-.
    destruct Ho as [Ho | Ho]; [discriminate Ho |].
    injection Ho as ->.
    destruct (generate_response_some _ _ _ _ _ _ _ Hg) as [Hne _]. congruence.
Qed.


(** C5.  In dry-run mode the storefront's reply endpoint is never called:
    the trace of reply calls after the run is the trace before it.  A
    review (without reply, with text) whose generated response passes
    validation gets the terminal entry ["dry_run_success"] with the
    validated text, and the [successful] counter of the summary is the
    number of these entries.  The backend orchestrator does not call the
    endpoint in dry-run mode either, and gives a review it does not skip
    and for which it has a text the entry ["preview"]. *)
Theorem dry_run_never_dispatches
    (self : Reviews.GooglePlayReviews)
    (generator : AiResponse.AIResponseGenerator)
    (bself : BackendReviews.GooglePlayReviews)
    (bgenerator : BackendAiResponse.AIResponseGenerator)
    (max_results : Z) (rs : list review)
    (s : state AiResponse.history) (bs : state BackendAiResponse.heap) :
  Reviews.enable_ai self = true ->
  Reviews.ai_generator self = Some generator ->
  reviews_list (Reviews.service_of self) (clock s) max_results = Ok rs ->
  BackendReviews.enable_ai bself = true ->
  BackendReviews.ai_generator bself = Some bgenerator ->
  reviews_list (BackendReviews.service_of bself) (clock bs) max_results = Ok rs ->
  (exists res s',
      Reviews.auto_reply_to_reviews self max_results true s = (Ok res, s') /\
      reply_calls s' = reply_calls s /\
      Reviews.successful res
      = length (List.filter
                  (fun d => eqb_str (Reviews.status d) (py "dry_run_success"))
                  (default [] (Reviews.details res))) /\
      (forall pre r post client raw v,
          rs = pre ++ r :: post ->
          hasReply r = false ->
          strip (userComment r) <> [] ->
          AiResponse.gemini_client generator = Some client ->
          client (clock (Cli.state_before self generator true pre s))
                 (AiResponse.request generator (userComment r) (rating r)) = Ok raw ->
          AiResponse._validate_response (strip raw)
            (AiResponse.detect_language (userComment r)) = Some v ->
          default [] (Reviews.details res) !! length pre
          = Some (Reviews.mk_detail (reviewId r) (py "dry_run_success") None (Some v)))) /\
  (exists ds bs',
      BackendReviews.auto_reply_to_reviews bself max_results true bs = (Ok ds, bs') /\
      reply_calls bs' = reply_calls bs /\
      (forall pre r post v s1,
          rs = pre ++ r :: post ->
          hasReply r = false ->
          (rating r < 5)%Z ->
          BackendAiResponse.generate_response bgenerator (userComment r) (rating r)
            (reviewId r) (Backend.state_before bself bgenerator true pre bs)
          = (Ok (Some v), s1) ->
          v <> [] ->
          ds !! length pre
          = Some (BackendReviews.mk_detail (reviewId r) (py "preview") None
                    (Some (rating r)) (Some (userComment r)) (Some v) None))).
Proof.
  intros Hai Hgen Hlist Hbai Hbgen Hblist. split.
  - destruct (CliFacts.auto_reply_run self generator true max_results rs s
                Hai Hgen Hlist)
      as [os [s' [res [Hrun [Heq [Hdetails [_ [Hsucc _]]]]]]]].
    destruct (run_preview _ _ _ _ _ _ _ Hrun eq_refl) as [Hcalls Hcount].
    exists res, s'. split; [exact Heq |].
    split; [rewrite Hcalls; reflexivity |].
    split; [rewrite Hsucc, Hdetails; exact Hcount |].
    intros pre r post client raw v -> Hreply Htext Hclient Hraw Hvalid.
    destruct (CliFacts.auto_reply_split self generator true max_results pre r post s
                Hai Hgen Hlist)
      as [os_pre [k [d [s2 [os_post [s'' [Hpre [Hstep [Hpost Heq']]]]]]]]].
    rewrite Heq in Heq'. injection Heq' as -> _.
    rewrite CliFacts.details_tally_empty.
    rewrite (lookup_outcome snd os_pre (k, d) os_post _
               (CliFacts.run_length _ _ _ _ _ _ _ Hpre)).
    cbn [snd].
    destruct (generate_response_validated generator client (userComment r)
                (rating r) (reviewId r) _ raw v Hclient Hraw Hvalid)
      as [s1 [Hg _]].
    pose proof (validated_nonempty _ _ _ Hvalid) as Hne.
    destruct Hstep as [ | | o s1' ? ? Hg' Ho | v' s1' ? ? Hg' | v' s1' s3' ? ? Hg' ? Hdry
                      | v' s1' s3' ? ? Hg' ? Hdry | v' s1' e' s3' ? ? Hg' ? Hdry ];
      try congruence; try discriminate Hdry.
    rewrite Hg in Hg'. injection Hg' as <- <-.
    destruct Ho as [Ho | Ho]; congruence.
  - destruct (BackendFacts.backend_auto_reply_run bself bgenerator true max_results rs bs
                Hbai Hbgen Hblist) as [ds [bs' [Hrun Heq]]].
    exists ds, bs'. split; [exact Heq |].
    split; [rewrite (backend_run_preview _ _ _ _ _ _ Hrun); reflexivity |].
    intros pre r post v s1 -> Hreply Hstars Hg Hne.
    destruct (BackendFacts.backend_auto_reply_split bself bgenerator true max_results
                pre r post bs Hbai Hbgen Hblist)
      as [ds_pre [d [s2 [ds_post [bs'' [Hpre [Hstep [Hpost Heq']]]]]]]].
    rewrite Heq in Heq'. injection Heq' as -> _.
    rewrite list_lookup_middle
      by (symmetry; eapply BackendFacts.backend_run_length, Hpre).
    destruct Hstep as [ | | o s1' ? ? Hg' Ho | v' s1' ? ? Hg'
                      | v' s1' success s3' ? ? Hg' ? Hdry
                      | v' s1' e' s3' ? ? Hg' ? Hdry ];
      try congruence; try discriminate Hdry; try lia.
    rewrite Hg in Hg'. injection Hg' as <- <-.
    destruct Ho as [Ho | Ho]; congruence.
Qed.

(** C6 (amended).  When the model's text is rejected by the validator,
    the validator returns nothing and names no gate, [generate_response]
    returns nothing, and the review's entry is failed with reason
    ["ai_generation_failed"]: the entry of a generation failure, from
    which the summary does not tell it apart. *)
Theorem rejection_reported_as_generation_failure
    (self : Reviews.GooglePlayReviews)
    (generator : AiResponse.AIResponseGenerator) (client : model)
    (max_results : Z) (dry_run : bool) (pre : list review) (r : review)
    (post : list review) (raw : pystr) (s : state AiResponse.history) :
  Reviews.enable_ai self = true ->
  Reviews.ai_generator self = Some generator ->
  AiResponse.gemini_client generator = Some client ->
  reviews_list (Reviews.service_of self) (clock s) max_results
    = Ok (pre ++ r :: post) ->
  hasReply r = false ->
  strip (userComment r) <> [] ->
  let s_r := Cli.state_before self generator dry_run pre s in
  client (clock s_r) (AiResponse.request generator (userComment r) (rating r))
    = Ok raw ->
  AiResponse._validate_response (strip raw)
    (AiResponse.detect_language (userComment r)) = None ->
  fst (AiResponse.generate_response generator (userComment r) (rating r)
         (reviewId r) s_r) = Ok None /\
  exists res s' ds,
    Reviews.auto_reply_to_reviews self max_results dry_run s = (Ok res, s') /\
    Reviews.details res = Some ds /\
    ds !! length pre
    = Some (Reviews.mk_detail (reviewId r) (py "failed")
                              (Some (py "ai_generation_failed")) None).
Proof.
  intros Hai Hgen Hclient Hlist Hreply Htext s_r Hraw Hreject.
  pose proof (generate_response_rejected generator client (userComment r)
                (rating r) (reviewId r) s_r raw Hclient Hraw Hreject) as Hg.
  split; [rewrite Hg; reflexivity |].
  apply (failed_generation_entry self generator max_results dry_run pre r post s);
  try assumption.
  fold s_r. rewrite Hg. reflexivity.
Qed.

(** C9 (amended).  A handler built with AI disabled fails the run with an
    exception before anything is done: no call is made and no review is
    processed.  A handler built with AI enabled whose model client is
    unconfigured (the credential is missing) does not fail the run: the
    run returns a summary with one entry per review, each skipped or
    failed with reason ["ai_generation_failed"]. *)
Theorem missing_credential
    (svc : service) (generator : AiResponse.AIResponseGenerator)
    (max_results : Z) (dry_run : bool) (rs : list review)
    (s : state AiResponse.history) :
  AiResponse.gemini_client generator = None ->
  reviews_list svc (clock s) max_results = Ok rs ->
  Reviews.auto_reply_to_reviews (Reviews.new svc false generator) max_results dry_run s
  = (Raise (Exception (py "AI is not enabled. Initialize with enable_ai=True")), s) /\
  exists res s',
    Reviews.auto_reply_to_reviews (Reviews.new svc true generator) max_results dry_run s
    = (Ok res, s') /\
    Reviews.processed res = length rs /\
    reply_calls s' = reply_calls s /\
    Forall2 (fun r d =>
               Reviews.review_id d = reviewId r /\
               (Reviews.status d = py "skipped" \/
                (Reviews.status d = py "failed" /\
                 Reviews.reason d = Some (py "ai_generation_failed"))))
            rs (default [] (Reviews.details res)).
Proof.
  intros Hnone Hlist. split; [reflexivity |].
  destruct (CliFacts.auto_reply_run (Reviews.new svc true generator) generator
              dry_run max_results rs s eq_refl eq_refl Hlist)
    as [os [s' [res [Hrun [Heq [Hdetails [Hp _]]]]]]].
  exists res, s'. split; [exact Heq |]. split; [exact Hp |].
  split.
  { rewrite (run_unconfigured_reply_calls _ _ _ _ _ _ _ Hnone Hrun). reflexivity. }
  rewrite Hdetails. eapply CliFacts.run_Forall2; [| exact Hrun].
  intros r s0 k d s1 Hstep. split.
  - eapply outcome_review_id, Hstep.
  - eapply outcome_unconfigured; eassumption.
Qed.

End WithRuntime.

#[local] Existing Instance Fixtures.plain_runtime.
Import Fixtures.

(** C1, as stated, fails on the backend orchestrator: a five-star review
    with text and without reply is skipped. *)
Lemma backend_skips_five_stars :
  hasReply praise_review = false /\
  strip (userComment praise_review) <> [] /\
  exists d s',
    BackendReviews.auto_reply_to_reviews
      (backend_handler (store [praise_review]) polite_model)
      5 true backend_start = (Ok [d], s') /\
    BackendReviews.review_id d = reviewId praise_review /\
    BackendReviews.status d = py "skipped".
Proof.
  split; [reflexivity |]. split; [vm_compute; discriminate |].
  eexists _, _. split; [vm_compute; reflexivity |].
  split; reflexivity.
Qed.

(** The command-line orchestrator on a batch with all four kinds of
    review, next to the backend on the same batch. *)
Lemma skip_rule_witness :
  (exists res s',
      Reviews.auto_reply_to_reviews (handler (store mixed_batch) (Some polite_model))
        5 true start = (Ok res, s') /\
      Forall2 (fun r d =>
                 Reviews.review_id d = reviewId r /\
                 (Reviews.status d = py "skipped" <->
                  hasReply r = true \/ strip (userComment r) = []))
              mixed_batch (default [] (Reviews.details res))) /\
  (exists ds bs',
      BackendReviews.auto_reply_to_reviews
        (backend_handler (store mixed_batch) polite_model) 5 true backend_start
      = (Ok ds, bs') /\
      Forall2 (fun r d =>
                 BackendReviews.review_id d = reviewId r /\
                 (hasReply r = true \/ (5 <= rating r)%Z ->
                  BackendReviews.status d = py "skipped") /\
                 (hasReply r = false -> (rating r < 5)%Z ->
                  strip (userComment r) <> [] ->
                  BackendReviews.status d <> py "skipped"))
              mixed_batch ds).
Proof.
  apply (skip_rule (handler (store mixed_batch) (Some polite_model))
                   (generator_with (Some polite_model))
                   (backend_handler (store mixed_batch) polite_model)
                   (backend_generator polite_model)); reflexivity.
Defined.

(** C4, as stated, fails when the exception is raised by the dispatch: the
    entry is failed, but its reason is the message of the exception. *)
Lemma dispatch_exception_reason :
  exists d s',
    Reviews.auto_reply_to_reviews
      (handler (read_only_store [crash_review]) (Some polite_model)) 1 false start
    = (Ok (Reviews.mk_results 1 0 1 0 (Some [d])), s') /\
    Reviews.status d = py "failed" /\
    Reviews.reason d = Some (py "Unexpected error while replying to review: boom") /\
    Reviews.reason d <> Some (py "ai_generation_failed").
Proof.
  eexists _, _. split; [vm_compute; reflexivity |].
  split; [reflexivity |]. split; [reflexivity |].
  vm_compute. discriminate.
Qed.

(** The model is down for the second review of four: that review fails,
    all four are reported. *)
Lemma failures_are_isolated_witness :
  exists res s' ds,
    Reviews.auto_reply_to_reviews
      (handler (store mixed_batch) (Some (flaky_model 2))) 5 true start = (Ok res, s') /\
    Reviews.details res = Some ds /\
    Reviews.processed res = 4%nat /\
    ds !! 1%nat = Some (Reviews.mk_detail (py "r1") (py "failed")
                          (Some (py "ai_generation_failed")) None).
Proof.
  destruct (failures_are_isolated
              (handler (store mixed_batch) (Some (flaky_model 2)))
              (generator_with (Some (flaky_model 2)))
              5 true [praise_review] crash_review [replied_review; blank_review] start
              eq_refl eq_refl eq_refl eq_refl)
    as [res [s' [ds [Heq [Hdetails [_ [Hp [_ [Hfail _]]]]]]]]].
  - vm_compute. discriminate.
  - exists res, s', ds. split; [exact Heq |]. split; [exact Hdetails |].
    split; [exact Hp |]. apply Hfail. vm_compute. reflexivity.
Defined.

(** The end-to-end example of the specification: one one-star review,
    dry run. *)
Lemma dry_run_never_dispatches_witness :
  exists res s',
    Reviews.auto_reply_to_reviews
      (handler (store [crash_review]) (Some polite_model)) 1 true start = (Ok res, s') /\
    reply_calls s' = [] /\
    default [] (Reviews.details res) !! 0%nat
    = Some (Reviews.mk_detail (py "r1") (py "dry_run_success") None (Some polite_text)).
Proof.
  destruct (dry_run_never_dispatches
              (handler (store [crash_review]) (Some polite_model))
              (generator_with (Some polite_model))
              (backend_handler (store [crash_review]) polite_model)
              (backend_generator polite_model)
              1 [crash_review] start backend_start
              eq_refl eq_refl eq_refl eq_refl eq_refl eq_refl)
    as [[res [s' [Heq [Hcalls [_ Hentry]]]]] _].
  exists res, s'. split; [exact Heq |]. split; [exact Hcalls |].
  apply (Hentry [] crash_review [] polite_model polite_text polite_text);
    try reflexivity.
  vm_compute. discriminate.
Defined.

(** C6, as stated, fails: a run whose model answers with an apology and a
    run whose model is down return the same summary, whose entry names no
    gate. *)
Lemma rejection_indistinguishable :
  fst (Reviews.auto_reply_to_reviews
         (handler (store [crash_review]) (Some apology_model)) 1 true start)
  = fst (Reviews.auto_reply_to_reviews
           (handler (store [crash_review]) (Some down_model)) 1 true start) /\
  fst (Reviews.auto_reply_to_reviews
         (handler (store [crash_review]) (Some apology_model)) 1 true start)
  = Ok (Reviews.mk_results 1 0 1 0
          (Some [Reviews.mk_detail (py "r1") (py "failed")
                                   (Some (py "ai_generation_failed")) None])).
Proof. split; vm_compute; reflexivity. Qed.

(** The apology of the model is rejected and reported as a failed
    generation. *)
Lemma rejection_reported_witness :
  exists res s' ds,
    Reviews.auto_reply_to_reviews
      (handler (store [crash_review]) (Some apology_model)) 1 true start = (Ok res, s') /\
    Reviews.details res = Some ds /\
    ds !! 0%nat = Some (Reviews.mk_detail (py "r1") (py "failed")
                          (Some (py "ai_generation_failed")) None).
Proof.
  destruct (rejection_reported_as_generation_failure
              (handler (store [crash_review]) (Some apology_model))
              (generator_with (Some apology_model)) apology_model
              1 true [] crash_review []
              (py "Sorry for the inconvenience, we'll fix it soon") start
              eq_refl eq_refl eq_refl eq_refl eq_refl)
    as [_ Hentry].
  - vm_compute. discriminate.
  - reflexivity.
  - vm_compute. reflexivity.
  - exact Hentry.
Defined.

(** C9, as stated, fails: with the credential missing the run is not
    aborted, it returns a summary with an entry for the review. *)
Lemma missing_credential_not_fatal :
  AiResponse.gemini_client (generator_with None) = None /\
  fst (Reviews.auto_reply_to_reviews (handler (store [crash_review]) None) 1 true start)
  = Ok (Reviews.mk_results 1 0 1 0
          (Some [Reviews.mk_detail (py "r1") (py "failed")
                                   (Some (py "ai_generation_failed")) None])).
Proof. split; [reflexivity | vm_compute; reflexivity]. Qed.

(** The same storefront and generator, with AI disabled and enabled. *)
Lemma missing_credential_witness :
  Reviews.auto_reply_to_reviews
    (Reviews.new (store [crash_review]) false (generator_with None)) 1 true start
  = (Raise (Exception (py "AI is not enabled. Initialize with enable_ai=True")), start) /\
  exists res s',
    Reviews.auto_reply_to_reviews
      (Reviews.new (store [crash_review]) true (generator_with None)) 1 true start
    = (Ok res, s') /\
    Reviews.processed res = 1%nat.
Proof.
  destruct (missing_credential (store [crash_review]) (generator_with None)
              1 true [crash_review] start eq_refl eq_refl)
    as [Hdisabled [res [s' [Heq [Hp _]]]]].
  split; [exact Hdisabled |]. exists res, s'. split; [exact Heq | exact Hp].
Defined.

End OrchestratorClaims.

(** * Further properties of the engine *)

(** ** What a run of [src/reviews.py] leaves behind *)

Module AuditFacts.
Import Py Effects AiResponse Reviews Spec Orchestration Orchestration.Cli Audit.
Import PyFacts ValidatorFacts EffectFacts GeneratorFacts CliFacts.

Lemma eligible_true_iff (r : review) :
  eligible r = true <-> hasReply r = false /\ strip (userComment r) <> [].
Proof.
  unfold eligible. rewrite andb_true_iff, !negb_true_iff. split.
  - intros [Hr Hb]. split; [exact Hr |].
    intros Hnil. apply strip_nil_iff in Hnil. congruence.
  - intros [Hr Hb]. split; [exact Hr |].
    apply not_true_is_false. intros Hblank. apply strip_nil_iff in Hblank. congruence.
Qed.

Lemma eligible_false_iff (r : review) :
  eligible r = false <-> hasReply r = true \/ strip (userComment r) = [].
Proof.
  split.
  - intros Hne. destruct (hasReply r) eqn:Hr; [left; reflexivity | right].
    destruct (strip (userComment r)) eqn:Hs; [reflexivity |].
    assert (eligible r = true) by (apply eligible_true_iff; split; congruence).
    congruence.
  - intros Hor. apply not_true_is_false. intros He.
    apply eligible_true_iff in He as [Hr Hs]. destruct Hor; congruence.
Qed.

Section WithRuntime.
Context `{Runtime}.

(** The shape of a text the validator returns. *)
Lemma validated_shape (v : pystr) :
  validated v ->
  strip v = v /\
  (10 <= length v <= 350)%nat /\
  existsb (contains (lower v)) forbidden_words = false.
Proof.
  intros [response [l Hv]]. rewrite validate_unfold in Hv.
  destruct (negb (truthy response)); [discriminate |].
  destruct (existsb _ forbidden_words) eqn:Hforb; [discriminate |].
  destruct (length (strip (truncated response)) <? 10)%nat eqn:Hshort; [discriminate |].
  injection Hv as <-. apply Nat.ltb_ge in Hshort.
  split; [apply strip_idemp |]. split.
  - pose proof (length_strip_le (truncated response)).
    pose proof (length_truncated response). lia.
  - destruct (strip_infix (truncated response)) as [a [b Hab]].
    rewrite Hab in Hforb. eapply any_contains_lower_infix, Hforb.
Qed.

(** X1.  The texts the validator can return are exactly the trimmed texts
    of 10 to 350 characters that contain no forbidden word in any letter
    case; the validator returns each of them unchanged, for every
    language. *)
Theorem validated_texts_characterised (v : pystr) :
  validated v <->
  strip v = v /\
  (10 <= length v <= 350)%nat /\
  existsb (contains (lower v)) forbidden_words = false.
Proof.
  split; [apply validated_shape |].
  intros [Htrim [[Hmin Hmax] Hclean]]. exists v, En.
  rewrite validate_unfold, (truncated_short v Hmax), Htrim, Hclean.
  rewrite truthy_length by lia.
  apply Nat.ltb_ge in Hmin. rewrite Hmin. reflexivity.
Qed.

Section Generator.
Variable self : AIResponseGenerator.

(** The state [generate_response] reaches when it returns a text. *)
Lemma generate_response_some_state review_text rating review_id s v s1 :
  generate_response self review_text rating review_id s = (Ok (Some v), s1) ->
  exists raw,
    _validate_response (strip raw) (detect_language review_text) = Some v /\
    model_calls self = 1%nat /\
    s1 = mk_state (S (clock s)) (reply_calls s)
           (heap s ++ [mk_log_entry (S (clock s)) review_id review_text rating
                         (detect_language review_text) (strip raw) v (length v)]).
Proof.
  intros Hg.
  destruct (generate_response_some self _ _ _ _ _ _ Hg)
    as [Hne [client [raw [Hclient [Hraw Hvalid]]]]].
  exists raw. split; [exact Hvalid |].
  split; [unfold model_calls; rewrite Hclient; reflexivity |].
  revert Hg. run_monad. rewrite Hclient, Hraw, Hvalid.
  destruct v as [|c v]; [congruence |].
  cbn [clock reply_calls heap]. intros Hg. injection Hg as <-. reflexivity.
Qed.

(** The state it reaches when it returns nothing. *)
Lemma generate_response_none_state review_text rating review_id s o s1 :
  generate_response self review_text rating review_id s = (Ok o, s1) ->
  o = None \/ o = Some [] ->
  s1 = mk_state (clock s + model_calls self) (reply_calls s) (heap s).
Proof.
  intros Hg Ho.
  assert (Hnone : o = None).
  { destruct Ho as [-> | ->]; [reflexivity |].
    destruct (generate_response_some self _ _ _ _ _ _ Hg) as [Hne _]. congruence. }
  subst o. unfold model_calls.
  destruct (gemini_client self) as [client |] eqn:Hclient.
  - replace (clock s + 1)%nat with (S (clock s)) by lia. fold (listed s).
    destruct (client (clock s) (request self review_text rating)) as [raw | e] eqn:Hraw.
    + destruct (_validate_response (strip raw) (detect_language review_text))
        as [v |] eqn:Hvalid.
      * destruct (generate_response_validated self _ _ _ review_id _ _ _
                    Hclient Hraw Hvalid) as [s2 [Hg2 _]]. congruence.
      * rewrite (generate_response_rejected self _ _ _ review_id _ _
                   Hclient Hraw Hvalid) in Hg. congruence.
    + rewrite (generate_response_model_raises self _ _ _ review_id _ _ Hclient Hraw)
        in Hg. congruence.
  - rewrite generate_response_unconfigured in Hg by exact Hclient.
    injection Hg as <-. destruct s. cbn. f_equal. lia.
Qed.

(** X2.  [generate_response] never raises and never calls the storefront.
    It makes one model call when a client is configured and none
    otherwise.  When it returns a text it has appended exactly one entry to
    the history, holding the review's id, text and rating, the detected
    language, the stripped answer of the model, the returned text and its
    length; when it returns nothing the history is as it was. *)
Theorem generate_response_effect (review_text : pystr) (rating : Z)
    (review_id : pystr) (s : state history) :
  exists o s',
    generate_response self review_text rating review_id s = (Ok o, s') /\
    reply_calls s' = reply_calls s /\
    clock s' = (clock s + model_calls self)%nat /\
    match o with
    | Some v =>
      exists e, heap s' = heap s ++ [e] /\
                well_logged e /\
                final_response e = v /\
                log_review_id e = review_id /\
                log_review_text e = review_text /\
                log_rating e = rating /\
                timestamp e = clock s'
    | None => heap s' = heap s
    end.
Proof.
  destruct (generate_response_returns self review_text rating review_id s)
    as [o [s' [Hg Hcalls]]].
  exists o, s'. split; [exact Hg |]. split; [exact Hcalls |].
  destruct o as [v |].
  - destruct (generate_response_some_state _ _ _ _ _ _ Hg)
      as [raw [Hvalid [Hcount ->]]].
    cbn [clock heap]. split; [lia |].
    eexists. split; [reflexivity |].
    unfold well_logged. cbn. repeat split; try reflexivity. exact Hvalid.
  - rewrite (generate_response_none_state _ _ _ _ _ _ Hg (or_introl eq_refl)).
    split; reflexivity.
Qed.

End Generator.

Section Run.
Variables (self : GooglePlayReviews) (generator : AIResponseGenerator)
          (dry_run : bool).

(** [reply_to_review] hands the text to the storefront once and returns
    [True], or raises. *)
Lemma reply_to_review_state review_id text s b s' :
  reply_to_review self review_id text s = (b, s') ->
  s' = mk_state (S (clock s)) (reply_calls s ++ [(review_id, text)]) (heap s) /\
  b <> Ok false.
Proof.
  cbv [reply_to_review try_except bind external ret raise log_reply_call].
  cbn [clock reply_calls heap].
  destruct (reviews_reply (service_of self) (clock s) review_id text)
    as [[] | [resp c | m]]; intros Heq; injection Heq as <- <-;
    (split; [reflexivity | discriminate]).
Qed.

(** What one transition adds to the history, to the trace of reply calls
    and to the clock. *)
Lemma outcome_effects r s k d s' :
  outcome self generator dry_run r s k d s' ->
  exists added calls,
    heap s' = heap s ++ added /\
    reply_calls s' = reply_calls s ++ calls /\
    clock s'
    = (clock s + (if eligible r then model_calls generator else 0) + length calls)%nat /\
    Forall well_logged added /\
    calls = (if dry_run then []
             else map (fun e => (log_review_id e, final_response e)) added) /\
    (eligible r = false -> added = [] /\ calls = [] /\ k = Skipped) /\
    (eligible r = true ->
       k <> Skipped /\ (length added <= 1)%nat /\
       Forall (fun e => log_review_id e = reviewId r) added /\
       (length added = 0%nat -> k = Failed) /\
       (dry_run = true -> length added = 1%nat -> k = Successful) /\
       (k = Successful -> length added = 1%nat)).
Proof.
  intros Hstep.
  destruct Hstep as [ Hr | Hr Hs | o s1 Hr Hs Hg Ho | v s1 Hr Hs Hg Hv Hdry
                    | v s1 s2 Hr Hs Hg Hv Hdry Hpost
                    | v s1 s2 Hr Hs Hg Hv Hdry Hpost
                    | v s1 e s2 Hr Hs Hg Hv Hdry Hpost ].
  - assert (He : eligible r = false) by (apply eligible_false_iff; auto).
    exists [], []. rewrite He, !app_nil_r. cbn.
    repeat split; try reflexivity; try lia; try constructor; try congruence;
      destruct dry_run; reflexivity.
  - assert (He : eligible r = false) by (apply eligible_false_iff; auto).
    exists [], []. rewrite He, !app_nil_r. cbn.
    repeat split; try reflexivity; try lia; try constructor; try congruence;
      destruct dry_run; reflexivity.
  - assert (He : eligible r = true) by (apply eligible_true_iff; auto).
    rewrite (generate_response_none_state _ _ _ _ _ _ _ Hg Ho).
    exists [], []. rewrite He, !app_nil_r. cbn.
    repeat split; try reflexivity; try lia; try constructor; try congruence;
      try discriminate; destruct dry_run; reflexivity.
  - assert (He : eligible r = true) by (apply eligible_true_iff; auto).
    destruct (generate_response_some_state _ _ _ _ _ _ _ Hg)
      as [raw [Hvalid [Hcount ->]]].
    eexists [_], []. rewrite He, Hcount, Hdry, !app_nil_r. cbn.
    repeat split; try reflexivity; try lia; try congruence; try discriminate;
      repeat constructor; cbn; try reflexivity; exact Hvalid.
  - assert (He : eligible r = true) by (apply eligible_true_iff; auto).
    destruct (generate_response_some_state _ _ _ _ _ _ _ Hg)
      as [raw [Hvalid [Hcount ->]]].
    destruct (reply_to_review_state _ _ _ _ _ Hpost) as [-> _].
    eexists [_], [_]. rewrite He, Hcount, Hdry. cbn.
    repeat split; try reflexivity; try lia; try congruence; try discriminate;
      repeat constructor; cbn; try reflexivity; exact Hvalid.
  - destruct (reply_to_review_state _ _ _ _ _ Hpost) as [_ Hnot]. congruence.
  - assert (He : eligible r = true) by (apply eligible_true_iff; auto).
    destruct (generate_response_some_state _ _ _ _ _ _ _ Hg)
      as [raw [Hvalid [Hcount ->]]].
    destruct (reply_to_review_state _ _ _ _ _ Hpost) as [-> _].
    eexists [_], [_]. rewrite He, Hcount, Hdry. cbn.
    repeat split; try reflexivity; try lia; try congruence; try discriminate;
      repeat constructor; cbn; try reflexivity; exact Hvalid.
Qed.

(** What a batch adds to the history, to the trace of reply calls and to
    the clock, and how the counters relate to it. *)
Lemma run_effects rs s os s' :
  run self generator dry_run rs s os s' ->
  exists added calls,
    heap s' = heap s ++ added /\
    reply_calls s' = reply_calls s ++ calls /\
    clock s'
    = (clock s + length (List.filter eligible rs) * model_calls generator
       + length calls)%nat /\
    Forall well_logged added /\
    calls = (if dry_run then []
             else map (fun e => (log_review_id e, final_response e)) added) /\
    sublist (map log_review_id added) (map reviewId (List.filter eligible rs)) /\
    (count Skipped os + length (List.filter eligible rs) = length rs)%nat /\
    (count Successful os <= length added)%nat /\
    (length added <= count Successful os + count Failed os)%nat /\
    (dry_run = true -> length added = count Successful os).
Proof.
  induction 1 as [s | r rs s k d s1 os s2 Hstep Hrun IH].
  - exists [], []. rewrite !app_nil_r. unfold count. cbn.
    repeat split; try reflexivity; try lia; try constructor.
    destruct dry_run; reflexivity.
  - destruct (outcome_effects _ _ _ _ _ Hstep)
      as [a1 [c1 [Hh1 [Hc1 [Hk1 [Hw1 [Hcalls1 [Hskip Helig]]]]]]]].
    destruct IH as [a2 [c2 [Hh2 [Hc2 [Hk2 [Hw2 [Hcalls2 [Hsub [Hsk [Hle [Hge Hdry]]]]]]]]]]].
    exists (a1 ++ a2), (c1 ++ c2).
    split; [rewrite Hh2, Hh1, app_assoc; reflexivity |].
    split; [rewrite Hc2, Hc1, app_assoc; reflexivity |].
    assert (Hcount : forall k', count k' ((k, d) :: os)
                     = ((if kind_eqb k k' then 1 else 0) + count k' os)%nat).
    { intros k'. unfold count. cbn [List.filter fst].
      destruct (kind_eqb k k'); reflexivity. }
    rewrite !Hcount. cbn [List.filter].
    destruct (eligible r) eqn:He.
    + destruct (Helig eq_refl) as [Hns [Hlen [Hids [Hzero [Hone Hsucc]]]]].
      cbn [length map]. rewrite !length_app.
      split; [rewrite Hk2, Hk1; lia |].
      split; [apply Forall_app; split; assumption |].
      split.
      { rewrite Hcalls1, Hcalls2. destruct dry_run; [reflexivity |].
        rewrite map_app. reflexivity. }
      split.
      { rewrite map_app. destruct a1 as [|e [|e' a1]]; cbn in Hlen; try lia.
        - cbn. apply sublist_cons. exact Hsub.
        - cbn. inversion Hids as [|? ? Hid _]; subst. rewrite Hid.
          apply sublist_skip. exact Hsub. }
      destruct k; cbn [kind_eqb]; try congruence.
      * split; [lia |]. split; [lia |]. split; [lia |].
        intros Hd. specialize (Hdry Hd).
        destruct a1 as [|e a1]; [cbn; lia |].
        cbn in Hlen. assert (length a1 = 0%nat) by lia.
        specialize (Hone Hd). cbn in Hone. rewrite H0 in Hone.
        specialize (Hone eq_refl). discriminate.
      * specialize (Hsucc eq_refl). split; [lia |]. split; [lia |]. split; [lia |].
        intros Hd. specialize (Hdry Hd). lia.
    + destruct (Hskip eq_refl) as [-> [-> ->]]. cbn [app length kind_eqb].
      split; [rewrite Hk2, Hk1; cbn; lia |].
      split; [exact Hw2 |].
      split; [rewrite Hcalls2; destruct dry_run; reflexivity |].
      split; [exact Hsub |].
      repeat split; try lia. exact Hdry.
Qed.

(** The status, the counter and the response of an entry go together. *)
Lemma outcome_status r s k d s' :
  outcome self generator dry_run r s k d s' ->
  kind_eqb k Skipped = eqb_str (status d) (py "skipped") /\
  kind_eqb k Failed = eqb_str (status d) (py "failed") /\
  kind_eqb k Successful
  = (eqb_str (status d) (py "dry_run_success") || eqb_str (status d) (py "success")) /\
  review_id d = reviewId r /\
  (forall v, response d = Some v ->
             validated v /\ k = Successful /\ reason d = None).
Proof.
  intros Hstep.
  destruct Hstep as [ Hr | Hr Hs | o s1 Hr Hs Hg Ho | v s1 Hr Hs Hg Hv Hdry
                    | v s1 s2 Hr Hs Hg Hv Hdry Hpost
                    | v s1 s2 Hr Hs Hg Hv Hdry Hpost
                    | v s1 e s2 Hr Hs Hg Hv Hdry Hpost ];
    try (destruct (reply_to_review_state _ _ _ _ _ Hpost) as [_ Hnot]; congruence);
    (split; [vm_compute; reflexivity |]);
    (split; [vm_compute; reflexivity |]);
    (split; [vm_compute; reflexivity |]);
    (split; [reflexivity |]);
    cbn [response reason]; intros v' Hv'; try discriminate Hv';
    injection Hv' as <-;
    destruct (generate_response_some_state _ _ _ _ _ _ _ Hg) as [raw [Hvalid _]];
    (split; [eexists _, _; exact Hvalid | split; reflexivity]).
Qed.

Lemma run_count_status (k0 : kind) (p : detail -> bool) rs s os s' :
  (forall r s k d s', outcome self generator dry_run r s k d s' -> kind_eqb k k0 = p d) ->
  run self generator dry_run rs s os s' ->
  count k0 os = length (List.filter p (map snd os)).
Proof.
  intros Hp. induction 1 as [s | r rs s k d s1 os s2 Hstep Hrun IH]; [reflexivity |].
  unfold count in *. cbn [List.filter map fst snd].
  rewrite (Hp _ _ _ _ _ Hstep). destruct (p d); cbn; congruence.
Qed.

Lemma run_review_ids rs s os s' :
  run self generator dry_run rs s os s' ->
  map review_id (map snd os) = map reviewId rs.
Proof.
  induction 1 as [s | r rs s k d s1 os s2 Hstep Hrun IH]; [reflexivity |].
  destruct (outcome_status _ _ _ _ _ Hstep) as [_ [_ [_ [Hid _]]]].
  cbn [map snd]. rewrite IH, Hid. reflexivity.
Qed.

Lemma run_responses rs s os s' :
  run self generator dry_run rs s os s' ->
  Forall (fun d => forall v, response d = Some v ->
                   validated v /\ reason d = None /\
                   (eqb_str (status d) (py "dry_run_success")
                    || eqb_str (status d) (py "success")) = true)
         (map snd os).
Proof.
  induction 1 as [s | r rs s k d s1 os s2 Hstep Hrun IH]; [constructor |].
  cbn [map snd]. constructor; [| exact IH].
  destruct (outcome_status _ _ _ _ _ Hstep) as [_ [_ [Hsucc [_ Hresp]]]].
  intros v Hv. destruct (Hresp v Hv) as [Hvalid [Hk Hreason]].
  split; [exact Hvalid |]. split; [exact Hreason |].
  rewrite <- Hsucc, Hk. reflexivity.
Qed.

Variables (max_results : Z) (rs : list review) (s : state history).
Hypothesis Hai : enable_ai self = true.
Hypothesis Hgen : ai_generator self = Some generator.
Hypothesis Hlist : reviews_list (service_of self) (clock s) max_results = Ok rs.


(** X4.  The history only grows.  A run leaves the entries that were in the
    history untouched and appends entries that [generate_response] wrote:
    each for an eligible review of the batch, in the order of the batch, at
    most one per review, with a validated final response and its length.
    An entry is written for every review counted as successful, and also
    for a review whose dispatch failed; in dry-run mode, too, where the
    entries written are exactly the successful reviews. *)
Theorem history_grows_by_validated_entries :
  exists res s' added,
    auto_reply_to_reviews self max_results dry_run s = (Ok res, s') /\
    heap s' = heap s ++ added /\
    Forall well_logged added /\
    Forall (fun e => validated (final_response e)) added /\
    sublist (map log_review_id added) (map reviewId (List.filter eligible rs)) /\
    (successful res <= length added <= successful res + failed res)%nat /\
    (dry_run = true -> length added = successful res).
Proof.
  destruct (auto_reply_run self generator dry_run max_results rs s Hai Hgen Hlist)
    as [os [s' [res [Hrun [Heq [_ [_ [Hs [Hf _]]]]]]]]].
  destruct (run_effects _ _ _ _ Hrun)
    as [added [calls [Hheap [_ [_ [Hlogged [_ [Hsub [_ [Hle [Hge Hdry]]]]]]]]]]].
  exists res, s', added. split; [exact Heq |]. split; [exact Hheap |].
  split; [exact Hlogged |].
  split.
  { eapply Forall_impl; [exact Hlogged |].
    intros e [_ [Hvalid _]]. eexists _, _. exact Hvalid. }
  split; [exact Hsub |]. rewrite Hs, Hf. split; [lia | exact Hdry].
Qed.

(** X5.  No retries.  A run makes one listing call, one model call for
    each eligible review when a model client is configured (in dry-run
    mode as well) and none otherwise, and one storefront call for each
    reply it dispatches; nothing else advances the clock. *)
Theorem one_model_call_per_eligible_review :
  exists res s',
    auto_reply_to_reviews self max_results dry_run s = (Ok res, s') /\
    clock s'
    = (clock s + 1 + length (List.filter eligible rs) * model_calls generator
       + (length (reply_calls s') - length (reply_calls s)))%nat.
Proof.
  destruct (auto_reply_run self generator dry_run max_results rs s Hai Hgen Hlist)
    as [os [s' [res [Hrun [Heq _]]]]].
  destruct (run_effects _ _ _ _ Hrun) as [added [calls [_ [Hcalls [Hclock _]]]]].
  exists res, s'. split; [exact Heq |].
  rewrite Hclock, Hcalls, length_app. cbn [clock reply_calls listed]. lia.
Qed.

(** X6.  The summary adds up.  [processed] is the size of the batch,
    [skipped] the number of its reviews that are not eligible, and
    [successful] plus [failed] the number of eligible ones.  The entries
    are one per review, in the order of the batch, and each counter is the
    number of entries with its status.  An entry carries a response only
    when it is a success, and that response is a validated text: the
    branch that reports ["api_post_failed"] with a response is never
    taken. *)
Theorem summary_adds_up :
  exists res s',
    auto_reply_to_reviews self max_results dry_run s = (Ok res, s') /\
    processed res = length rs /\
    (skipped res + length (List.filter eligible rs) = length rs)%nat /\
    (successful res + failed res = length (List.filter eligible rs))%nat /\
    map review_id (default [] (details res)) = map reviewId rs /\
    skipped res
    = length (List.filter (fun d => eqb_str (status d) (py "skipped"))
                          (default [] (details res))) /\
    failed res
    = length (List.filter (fun d => eqb_str (status d) (py "failed"))
                          (default [] (details res))) /\
    successful res
    = length (List.filter (fun d => eqb_str (status d) (py "dry_run_success")
                                    || eqb_str (status d) (py "success"))
                          (default [] (details res))) /\
    Forall (fun d => forall v, response d = Some v ->
                     validated v /\ reason d = None /\
                     (eqb_str (status d) (py "dry_run_success")
                      || eqb_str (status d) (py "success")) = true)
           (default [] (details res)).
Proof.
  destruct (auto_reply_run self generator dry_run max_results rs s Hai Hgen Hlist)
    as [os [s' [res [Hrun [Heq [Hdetails [Hp [Hs [Hf Hk]]]]]]]]].
  destruct (run_effects _ _ _ _ Hrun)
    as [added [calls [_ [_ [_ [_ [_ [_ [Hskipped _]]]]]]]]].
  pose proof (count_total os) as Htotal.
  pose proof (run_length _ _ _ _ _ _ _ Hrun) as Hlen.
  exists res, s'. split; [exact Heq |]. split; [exact Hp |].
  split; [rewrite Hk; exact Hskipped |].
  split; [rewrite Hs, Hf; lia |].
  rewrite Hdetails, Hk, Hf, Hs.
  split; [eapply run_review_ids, Hrun |].
  split.
  { eapply run_count_status; [| exact Hrun].
    intros r0 s0 k d s1 Hstep.
    destruct (outcome_status _ _ _ _ _ Hstep) as [Hstatus _]. exact Hstatus. }
  split.
  { eapply run_count_status; [| exact Hrun].
    intros r0 s0 k d s1 Hstep.
    destruct (outcome_status _ _ _ _ _ Hstep) as [_ [Hstatus _]]. exact Hstatus. }
  split.
  { eapply run_count_status; [| exact Hrun].
    intros r0 s0 k d s1 Hstep.
    destruct (outcome_status _ _ _ _ _ Hstep) as [_ [_ [Hstatus _]]]. exact Hstatus. }
  eapply run_responses, Hrun.
Qed.

End Run.



End WithRuntime.

#[local] Existing Instance Fixtures.plain_runtime.
Import Fixtures.

(** The polite answer of the fixtures is such a text. *)
Lemma validated_texts_characterised_witness : validated polite_text.
Proof.
  apply validated_texts_characterised. vm_compute.
  repeat split; try reflexivity; lia.
Defined.


(** A dry run on the mixed batch writes its two previews to the history. *)
Lemma history_grows_by_validated_entries_witness :
  exists res s' added,
    auto_reply_to_reviews (handler (store mixed_batch) (Some polite_model)) 5 true start
    = (Ok res, s') /\
    heap s' = added /\
    length added = successful res.
Proof.
  destruct (history_grows_by_validated_entries
              (handler (store mixed_batch) (Some polite_model))
              (generator_with (Some polite_model)) true 5 mixed_batch start
              eq_refl eq_refl eq_refl)
    as [res [s' [added [Heq [Hheap [_ [_ [_ [_ Hdry]]]]]]]]].
  exists res, s', added. split; [exact Heq |]. split; [exact Hheap |].
  apply Hdry. reflexivity.
Defined.

(** The same dry run: one listing call and two model calls. *)
Lemma one_model_call_per_eligible_review_witness :
  exists res s',
    auto_reply_to_reviews (handler (store mixed_batch) (Some polite_model)) 5 true start
    = (Ok res, s') /\
    clock s' = (0 + 1 + 2 * 1 + (length (reply_calls s') - 0))%nat.
Proof.
  exact (one_model_call_per_eligible_review
           (handler (store mixed_batch) (Some polite_model))
           (generator_with (Some polite_model)) true 5 mixed_batch start
           eq_refl eq_refl eq_refl).
Defined.

(** The same dry run: four processed, two skipped, two eligible. *)
Lemma summary_adds_up_witness :
  exists res s',
    auto_reply_to_reviews (handler (store mixed_batch) (Some polite_model)) 5 true start
    = (Ok res, s') /\
    processed res = 4%nat /\
    (skipped res + 2 = 4)%nat /\
    (successful res + failed res = 2)%nat.
Proof.
  destruct (summary_adds_up
              (handler (store mixed_batch) (Some polite_model))
              (generator_with (Some polite_model)) true 5 mixed_batch start
              eq_refl eq_refl eq_refl)
    as [res [s' [Heq [Hp [Hk [Hsf _]]]]]].
  exists res, s'. repeat split; assumption.
Defined.


End AuditFacts.

(** ** The detector and the prompt *)

Module PromptFacts.
Import Py Effects AiResponse Audit PyFacts.

(** An item of a joined list is a piece of the result. *)
Lemma join_lookup (sep : pystr) (items : list pystr) (i : nat) (x : pystr) :
  items !! i = Some x -> exists a b, join sep items = a ++ x ++ b.
Proof.
  revert i. induction items as [|y items IH]; intros i Hi; [discriminate |].
  destruct i as [|i].
  - injection Hi as ->. destruct items as [|z items].
    + exists [], []. cbn [join]. rewrite app_nil_r. reflexivity.
    + exists [], (sep ++ join sep (z :: items)). reflexivity.
  - destruct items as [|z items]; [discriminate |].
    destruct (IH i Hi) as [a [b Hab]].
    exists (y ++ sep ++ a), b. change (join sep (y :: z :: items))
      with (y ++ sep ++ join sep (z :: items)).
    rewrite Hab, <- !app_assoc. reflexivity.
Qed.

Lemma contains_app_r (p s w : pystr) :
  contains s w = true -> contains (p ++ s) w = true.
Proof.
  rewrite !contains_spec. intros [a [b ->]].
  exists (p ++ a), b. rewrite <- app_assoc. reflexivity.
Qed.

Section WithRuntime.
Context `{Runtime}.

Lemma any_word_in_lower_infix (a t b : pystr) (words : list pystr) :
  any_word_in (lower t) words = true ->
  any_word_in (lower (a ++ t ++ b)) words = true.
Proof.
  intros Ht. apply not_false_iff_true. intros Hbig.
  apply any_contains_lower_infix in Hbig. unfold any_word_in in Ht. congruence.
Qed.

(** Decides a comparison of ranks by running through the tests left. *)
Ltac settle_rank :=
  repeat match goal with
         | |- context [if ?c then _ else _] => destruct c
         end;
  cbn [rank]; lia.

(** X9.  Text around a review can only move the detected language up the
    chain of tests: whatever is put before and after [t], the language
    detected for the whole is [t]'s own or one tested earlier
    (tr, es, fr, de, ru, id, fa, en in this order).  In particular a text
    detected as Turkish stays Turkish. *)
Theorem detection_survives_context (a t b : pystr) :
  (rank (detect_language (a ++ t ++ b)) <= rank (detect_language t))%nat /\
  (detect_language t = Tr -> detect_language (a ++ t ++ b) = Tr).
Proof.
  assert (Hrank : (rank (detect_language (a ++ t ++ b)) <= rank (detect_language t))%nat).
  { pose proof (any_word_in_lower_infix a t b) as Hup.
    unfold detect_language.
    destruct (any_word_in (lower t) turkish_words) eqn:Htr.
    { rewrite (Hup _ Htr). reflexivity. }
    destruct (any_word_in (lower (a ++ t ++ b)) turkish_words); [settle_rank |].
    destruct (any_word_in (lower t) spanish_words) eqn:Hes.
    { rewrite (Hup _ Hes). reflexivity. }
    destruct (any_word_in (lower (a ++ t ++ b)) spanish_words); [settle_rank |].
    destruct (any_word_in (lower t) french_words) eqn:Hfr.
    { rewrite (Hup _ Hfr). reflexivity. }
    destruct (any_word_in (lower (a ++ t ++ b)) french_words); [settle_rank |].
    destruct (any_word_in (lower t) german_words) eqn:Hde.
    { rewrite (Hup _ Hde). reflexivity. }
    destruct (any_word_in (lower (a ++ t ++ b)) german_words); [settle_rank |].
    destruct (any_word_in (lower t) russian_words) eqn:Hru.
    { rewrite (Hup _ Hru). reflexivity. }
    destruct (any_word_in (lower (a ++ t ++ b)) russian_words); [settle_rank |].
    destruct (any_word_in (lower t) indonesian_words) eqn:Hid.
    { rewrite (Hup _ Hid). reflexivity. }
    destruct (any_word_in (lower (a ++ t ++ b)) indonesian_words); [settle_rank |].
    destruct (any_word_in (lower t) persian_words) eqn:Hfa.
    { rewrite (Hup _ Hfa). reflexivity. }
    destruct (any_word_in (lower (a ++ t ++ b)) persian_words); settle_rank. }
  split; [exact Hrank |].
  intros Htr. rewrite Htr in Hrank.
  destruct (detect_language (a ++ t ++ b)); cbn [rank] in Hrank;
    first [reflexivity | lia].
Qed.

(** X10.  The text sent to the model carries the review verbatim between
    double quotes, its rating, the instruction of the language detected in
    the review and the instruction of the rule selected for the rating. *)
Theorem request_embeds_review (self : AIResponseGenerator)
    (review_text : pystr) (rating : Z) :
  let sent := request self review_text rating in
  contains sent (py "- Review Text: " ++ dquote ++ review_text ++ dquote) = true /\
  contains sent (py "- Rating: " ++ str_of_int rating ++ py "/5 stars") = true /\
  contains sent (language_instructions (detect_language review_text)) = true /\
  contains sent (rule_instructions self (select_rule rating)) = true.
Proof.
  intros sent.
  assert (Hitem : forall i x items,
    _build_prompt self review_text rating (detect_language review_text)
                  (select_rule rating) = join nl items ->
    items !! i = Some x ->
    contains sent x = true).
  { intros i x items Hprompt Hi. subst sent. unfold request.
    rewrite Hprompt. do 3 apply contains_app_r.
    apply contains_spec. exact (join_lookup nl items i x Hi). }
  unfold _build_prompt in Hitem. cbv zeta in Hitem.
  split; [exact (Hitem 9%nat _ _ eq_refl eq_refl) |].
  split; [exact (Hitem 8%nat _ _ eq_refl eq_refl) |].
  split; [exact (Hitem 1%nat _ _ eq_refl eq_refl) |].
  exact (Hitem 3%nat _ _ eq_refl eq_refl).
Qed.

End WithRuntime.

#[local] Existing Instance Fixtures.plain_runtime.

(** A Turkish word between Spanish and French ones. *)
Lemma detection_survives_context_witness :
  detect_language (py "muy bueno, " ++ py "harika" ++ py " merci") = Tr.
Proof.
  destruct (detection_survives_context (py "muy bueno, ") (py "harika") (py " merci"))
    as [_ Htr].
  apply Htr. vm_compute. reflexivity.
Defined.

End PromptFacts.

(** ** The statistics of the history *)

Module StatsFacts.
Import Py Effects AiResponse Reviews Stats Audit PyFacts.
Import QArith_base.






Section WithRuntime.
Context `{Runtime}.



End WithRuntime.

#[local] Existing Instance Fixtures.plain_runtime.
Import Fixtures.


End StatsFacts.

(** ** The commands of the command-line tool *)

Module MainFacts.
Import Py Effects AiResponse Reviews Orchestration Orchestration.Cli Main.
Import PyFacts GeneratorFacts CliFacts OrchestratorFacts.

(** X12.  The window of the history commands.  With a positive limit the
    entries shown are the newest [limit] ones, newest first.  A limit of
    zero shows the whole history, and a negative limit [-k] leaves out the
    [k] oldest entries and shows the rest. *)
Theorem shown_history_window {A} (history : list A) (limit : Z) :
  ((0 < limit)%Z ->
     shown_history history limit = take (Z.to_nat limit) (rev history)) /\
  (limit = 0%Z -> shown_history history limit = rev history) /\
  ((limit < 0)%Z ->
     shown_history history limit
     = take (length history - Z.to_nat (- limit)) (rev history)).
Proof.
  unfold shown_history, recent_history, slice_from.
  split; [| split].
  - intros Hpos. destruct (limit <? Z.of_nat (length history))%Z eqn:Hlt.
    + apply Z.ltb_lt in Hlt.
      assert (Hneg : (- limit <? 0)%Z = true) by (apply Z.ltb_lt; lia).
      rewrite Hneg, firstn_rev. do 2 f_equal. lia.
    + apply Z.ltb_ge in Hlt. rewrite firstn_all2; [reflexivity |].
      rewrite length_rev. lia.
  - intros ->. destruct (0 <? Z.of_nat (length history))%Z; reflexivity.
  - intros Hneg.
    assert (Hlt : (limit <? Z.of_nat (length history))%Z = true)
      by (apply Z.ltb_lt; lia).
    assert (Hstart : (- limit <? 0)%Z = false) by (apply Z.ltb_ge; lia).
    rewrite Hlt, Hstart, firstn_rev.
    destruct (Nat.le_gt_cases (Z.to_nat (- limit)) (length history)) as [Hle | Hgt].
    + do 2 f_equal. lia.
    + rewrite (skipn_all2 history) by lia.
      replace (length history - (length history - Z.to_nat (- limit)))%nat
        with (length history) by lia.
      rewrite skipn_all. reflexivity.
Qed.

(** Three entries: a limit of two shows the two newest, a limit of zero
    shows all three, a limit of minus one shows the two newest. *)
Lemma shown_history_window_witness :
  shown_history [1; 2; 3]%nat 2 = [3; 2]%nat /\
  shown_history [1; 2; 3]%nat 0 = [3; 2; 1]%nat /\
  shown_history [1; 2; 3]%nat (-1) = [3; 2]%nat.
Proof.
  destruct (shown_history_window [1; 2; 3]%nat 2) as [Hpos _].
  destruct (shown_history_window [1; 2; 3]%nat 0) as [_ [Hzero _]].
  destruct (shown_history_window [1; 2; 3]%nat (-1)) as [_ [_ Hneg]].
  split; [apply Hpos; lia |]. split; [apply Hzero; reflexivity | apply Hneg; lia].
Defined.

Section WithRuntime.
Context `{Runtime}.

(** A dry run of the orchestrator leaves the trace of reply calls alone,
    however it ends. *)
Lemma dry_run_reply_calls (handler : GooglePlayReviews) (max_results : Z)
    (s : state history) :
  reply_calls (snd (auto_reply_to_reviews handler max_results true s)) = reply_calls s.
Proof.
  destruct (enable_ai handler) eqn:Hai;
    [| unfold auto_reply_to_reviews; rewrite Hai; reflexivity].
  destruct (ai_generator handler) as [generator |] eqn:Hgen;
    [| unfold auto_reply_to_reviews; rewrite Hai, Hgen; reflexivity].
  destruct (reviews_list (service_of handler) (clock s) max_results)
    as [rs | e] eqn:Hlist.
  - destruct (auto_reply_run handler generator true max_results rs s Hai Hgen Hlist)
      as [os [s' [res [Hrun [Heq _]]]]].
    rewrite Heq. cbn [snd].
    destruct (run_preview handler generator true rs (listed s) os s' Hrun eq_refl)
      as [Hcalls _].
    rewrite Hcalls. reflexivity.
  - unfold auto_reply_to_reviews. rewrite Hai, Hgen.
    cbv [try_except bind list_reviews external raise]. rewrite Hlist.
    destruct e; reflexivity.
Qed.

(** X13.  The tool posts only when asked to.  Run without [--live],
    [auto_reply] hands the orchestrator [dry_run = True]: whatever the
    handler, the store and the model do, no reply call is made. *)
Theorem cli_posts_only_when_live (self : GooglePlayReviewsCLI) (max_results : Z)
    (s : state history) :
  reply_calls (snd (auto_reply self max_results false s)) = reply_calls s.
Proof.
  unfold auto_reply. destruct (reviews_handler self) as [handler |]; [| reflexivity].
  destruct (enable_ai handler); cbn [negb]; [| reflexivity].
  pose proof (dry_run_reply_calls handler max_results s) as Hcalls.
  destruct (auto_reply_to_reviews handler max_results true s) as [[res | e] s'];
    cbn [snd] in Hcalls; [| exact Hcalls].
  destruct (details res); exact Hcalls.
Qed.

(** X14.  An empty listing is reported as a failure.  When the store
    lists no review, the summary has no ['details'] key; [auto_reply]
    prints the four counters, all zero, and then the error
    [Failed to auto-reply: 'details'], in both modes.  Only the listing
    call has been made. *)
Theorem cli_empty_listing_reported_as_failure (self : GooglePlayReviewsCLI)
    (handler : GooglePlayReviews) (generator : AIResponseGenerator)
    (max_results : Z) (live : bool) (s : state history) :
  reviews_handler self = Some handler ->
  enable_ai handler = true ->
  ai_generator handler = Some generator ->
  reviews_list (service_of handler) (clock s) max_results = Ok [] ->
  auto_reply self max_results live s
  = (announce max_results live
     ++ counters (mk_results 0 0 0 0 None)
     ++ [ _print_error (py "Failed to auto-reply: " ++ py "'details'") ],
     listed s).
Proof.
  intros Hhandler Hai Hgen Hlist. unfold auto_reply. rewrite Hhandler, Hai.
  cbn [negb].
  assert (Hrun : auto_reply_to_reviews handler max_results (negb live) s
                 = (Ok (mk_results 0 0 0 0 None), listed s)).
  { unfold auto_reply_to_reviews. rewrite Hai, Hgen.
    cbv [try_except bind list_reviews external ret]. rewrite Hlist. reflexivity. }
  rewrite Hrun. reflexivity.
Qed.

(** X18.  The tool cannot get past its setup.  With no service-account
    data and no cached client, [setup_package_name] prints
    [Failed to initialize reviews handler: Service account data not
    provided. ...] and exits with status 1, before any call to the
    credential library, the store or the model; the object
    [GooglePlayReviewsCLI()] builds is in this case, whatever the package
    and the flags. *)
Theorem cli_setup_exits_without_credentials
    (connect : Auth.account -> nat -> result service)
    (generator : AIResponseGenerator)
    (self : GooglePlayReviewsCLI) (enable_ai : bool) (s : state history) :
  (Auth.service (auth self) = None ->
   Auth.service_account_data (auth self) = None
   \/ Auth.service_account_data (auth self) = Some [] ->
   setup_package_name connect generator self enable_ai s
   = (([ _print_error (py "Failed to initialize reviews handler: "
                       ++ (py "Service account data not provided. "
                           ++ py "Please provide service account JSON data.")) ],
       sys_exit 1), s)) /\
  setup_package_name connect generator new_cli enable_ai s
  = (([ _print_error (py "Failed to initialize reviews handler: "
                      ++ (py "Service account data not provided. "
                          ++ py "Please provide service account JSON data.")) ],
      sys_exit 1), s).
Proof.
  assert (Hexit : forall cli,
    Auth.service (auth cli) = None ->
    Auth.service_account_data (auth cli) = None
    \/ Auth.service_account_data (auth cli) = Some [] ->
    setup_package_name connect generator cli enable_ai s
    = (([ _print_error (py "Failed to initialize reviews handler: "
                        ++ (py "Service account data not provided. "
                            ++ py "Please provide service account JSON data.")) ],
        sys_exit 1), s)).
  { intros cli Hservice Hdata.
    unfold setup_package_name, Auth.get_service, Auth.authenticate.
    rewrite Hservice. destruct Hdata as [-> | ->]; reflexivity. }
  split; [apply Hexit |].
  apply Hexit; [reflexivity | left; reflexivity].
Qed.

End WithRuntime.

#[local] Existing Instance Fixtures.plain_runtime.
Import Fixtures.

(** An authentication object built from an empty dictionary. *)
Lemma cli_setup_exits_without_credentials_witness :
  snd (fst (setup_package_name (fun _ _ => Ok (store [])) (generator_with None)
                               (mk_cli (Auth.new (Some [])) None) true start))
  = sys_exit 1.
Proof.
  destruct (cli_setup_exits_without_credentials
              (fun _ _ => Ok (store [])) (generator_with None)
              (mk_cli (Auth.new (Some [])) None) true start) as [Hexit _].
  rewrite Hexit; [reflexivity | reflexivity | right; reflexivity].
Defined.

(** A store without reviews, in preview mode. *)
Lemma cli_empty_listing_reported_as_failure_witness :
  auto_reply (mk_cli (Auth.mk_auth (Some [(py "type", py "service_account")])
                                   (Some (store [])))
                     (Some (handler (store []) (Some polite_model)))) 5 false start
  = (announce 5 false
     ++ counters (mk_results 0 0 0 0 None)
     ++ [ _print_error (py "Failed to auto-reply: " ++ py "'details'") ],
     listed start).
Proof.
  exact (cli_empty_listing_reported_as_failure
           (mk_cli (Auth.mk_auth (Some [(py "type", py "service_account")])
                                 (Some (store [])))
                   (Some (handler (store []) (Some polite_model))))
           (handler (store []) (Some polite_model))
           (generator_with (Some polite_model)) 5 false start
           eq_refl eq_refl eq_refl eq_refl).
Defined.

End MainFacts.

(** ** What a backend run leaves behind *)

Module BackendAuditFacts.
Import Py Effects BackendAiResponse BackendReviews Orchestration Orchestration.Backend.
Import BackendAudit PyFacts EffectFacts GeneratorFacts BackendFacts OrchestratorFacts.

Section WithRuntime.
Context `{Runtime}.

(** What one call of the backend generator does to the state. *)
Lemma backend_generate_response_state (self : AIResponseGenerator)
    review_text rating review_id s o s1 :
  generate_response self review_text rating review_id s = (Ok o, s1) ->
  reply_calls s1 = reply_calls s /\
  clock s1 = (clock s + backend_model_calls self)%nat /\
  handler_history (Effects.heap s1) = handler_history (Effects.heap s) /\
  exists added,
    generator_history (Effects.heap s1) = generator_history (Effects.heap s) ++ added /\
    match o with
    | Some v =>
      added = [mk_entry review_id review_text rating (detect_language review_text)
                        v (S (clock s))] /\
      exists raw p, model_of self (clock s) p = Ok raw /\ raw <> [] /\ v = strip raw
    | None => added = []
    end.
Proof.
  run_monad. unfold backend_model_calls.
  destruct (has_api_key self); cbn [negb].
  - destruct (model_of self (clock s) _) as [raw | e] eqn:Hraw.
    + destruct raw as [|c raw]; cbn [truthy clock reply_calls Effects.heap].
      * intros Heq. injection Heq as <- <-. cbn [clock reply_calls Effects.heap].
        repeat split; try lia. exists []. rewrite app_nil_r. split; reflexivity.
      * intros Heq. injection Heq as <- <-.
        cbn [clock reply_calls Effects.heap generator_history handler_history].
        repeat split; try lia. eexists. split; [reflexivity |].
        split; [reflexivity |]. eexists _, _. split; [exact Hraw |].
        split; [discriminate | reflexivity].
    + intros Heq. injection Heq as <- <-. cbn [clock reply_calls Effects.heap].
      repeat split; try lia. exists []. rewrite app_nil_r. split; reflexivity.
  - intros Heq. injection Heq as <- <-.
    repeat split; try lia. exists []. rewrite app_nil_r. split; reflexivity.
Qed.

Section Run.
Variables (self : GooglePlayReviews) (generator : AIResponseGenerator)
          (dry_run : bool).
Hypothesis Hai : enable_ai self = true.

(** The backend [reply_to_review] makes one store call; only a call that
    returns is written to the handler's history. *)
Lemma backend_reply_to_review_state review_id text s b s' :
  reply_to_review self review_id text s = (b, s') ->
  clock s' = S (clock s) /\
  reply_calls s' = reply_calls s ++ [(review_id, text)] /\
  generator_history (Effects.heap s') = generator_history (Effects.heap s) /\
  (b = Ok true ->
     exists t, handler_history (Effects.heap s')
               = handler_history (Effects.heap s) ++ [mk_posted_entry review_id text t]) /\
  (b <> Ok true -> handler_history (Effects.heap s') = handler_history (Effects.heap s)).
Proof.
  cbv [reply_to_review try_except bind external ret raise log_reply_call now
       modify_heap].
  rewrite Hai. cbn [clock reply_calls Effects.heap].
  destruct (reviews_reply (service_of self) (clock s) review_id text)
    as [[] | [resp c | m]]; intros Heq; injection Heq as <- <-;
    cbn [clock reply_calls Effects.heap generator_history handler_history];
    repeat split; try congruence; try discriminate.
  intros _. eexists. reflexivity.
Qed.

Lemma open_review_true_iff (r : review) :
  open_review r = true <-> hasReply r = false /\ (rating r < 5)%Z.
Proof.
  unfold open_review. rewrite andb_true_iff, !negb_true_iff, Z.leb_gt. tauto.
Qed.

Lemma open_review_false_iff (r : review) :
  open_review r = false <-> hasReply r = true \/ (5 <= rating r)%Z.
Proof.
  unfold open_review. rewrite andb_false_iff, !negb_false_iff, Z.leb_le. tauto.
Qed.

(** What one transition of the backend adds to the two histories, to the
    trace of reply calls and to the clock. *)
Lemma backend_outcome_effects r s d s' :
  outcome self generator dry_run r s d s' ->
  exists added posted calls,
    generator_history (Effects.heap s') = generator_history (Effects.heap s) ++ added /\
    handler_history (Effects.heap s') = handler_history (Effects.heap s) ++ posted /\
    reply_calls s' = reply_calls s ++ calls /\
    clock s'
    = (clock s + (if open_review r then backend_model_calls generator else 0)
       + length calls)%nat /\
    (dry_run = true -> calls = []) /\
    map posted_pair posted = (if is_posted d then [detail_pair d] else []) /\
    sublist (map posted_pair posted) calls /\
    sublist (map fst calls) (if open_review r then [reviewId r] else []) /\
    Forall (fun c => snd c <> [] /\ strip (snd c) = snd c /\
                     In (fst c, snd c)
                        (map (fun e => (entry_review_id e, entry_response e)) added))
           calls.
Proof.
  intros Hstep.
  destruct Hstep as [ Hr | Hr Hstars | o s1 Hr Hstars Hg Ho | v s1 Hr Hstars Hg Hv Hdry
                    | v s1 success s2 Hr Hstars Hg Hv Hdry Hpost
                    | v s1 e s2 Hr Hstars Hg Hv Hdry Hpost ].
  - assert (Ho : open_review r = false) by (apply open_review_false_iff; auto).
    exists [], [], []. rewrite Ho, !app_nil_r.
    repeat split; try reflexivity; try (cbn [length]; lia); try constructor.
  - assert (Ho : open_review r = false) by (apply open_review_false_iff; auto).
    exists [], [], []. rewrite Ho, !app_nil_r.
    repeat split; try reflexivity; try (cbn [length]; lia); try constructor.
  - assert (Hopen : open_review r = true) by (apply open_review_true_iff; auto).
    destruct (backend_generate_response_state _ _ _ _ _ _ _ Hg)
      as [Hcalls [Hclock [Hhandler [added [Hgen _]]]]].
    exists added, [], []. rewrite Hopen, !app_nil_r.
    repeat split; try assumption; try reflexivity; try (cbn [length]; lia);
      try constructor.
    apply sublist_nil_l.
  - assert (Hopen : open_review r = true) by (apply open_review_true_iff; auto).
    destruct (backend_generate_response_state _ _ _ _ _ _ _ Hg)
      as [Hcalls [Hclock [Hhandler [added [Hgen _]]]]].
    exists added, [], []. rewrite Hopen, !app_nil_r.
    repeat split; try assumption; try reflexivity; try (cbn [length]; lia);
      try constructor.
    apply sublist_nil_l.
  - assert (Hopen : open_review r = true) by (apply open_review_true_iff; auto).
    destruct (backend_generate_response_state _ _ _ _ _ _ _ Hg)
      as [Hcalls [Hclock [Hhandler [added [Hgen [Hadded [raw [p [_ [_ Hstrip]]]]]]]]]].
    destruct (backend_reply_to_review_state _ _ _ _ _ Hpost)
      as [Hclock2 [Hcalls2 [Hgen2 [Htrue Hfalse]]]].
    assert (Hcall : Forall (fun c => snd c <> [] /\ strip (snd c) = snd c /\
                       In (fst c, snd c)
                          (map (fun e => (entry_review_id e, entry_response e)) added))
                      [(reviewId r, v)]).
    { repeat constructor; cbn [fst snd]; [exact Hv | |].
      - rewrite Hstrip. apply strip_idemp.
      - rewrite Hadded. left. reflexivity. }
    destruct success.
    + destruct (Htrue eq_refl) as [t Hposted].
      exists added, [mk_posted_entry (reviewId r) v t], [(reviewId r, v)].
      rewrite Hopen, Hgen2, Hposted, Hcalls2, Hclock2, Hgen, Hhandler, Hcalls, Hclock.
      repeat split; try reflexivity; try (cbn [length]; lia); try congruence;
        try exact Hcall.
    + exists added, [], [(reviewId r, v)].
      rewrite Hopen, Hgen2, (Hfalse ltac:(discriminate)), Hcalls2, Hclock2,
        Hgen, Hhandler, Hcalls, Hclock, app_nil_r.
      repeat split; try reflexivity; try (cbn [length]; lia); try congruence;
        try exact Hcall.
      apply sublist_nil_l.
  - assert (Hopen : open_review r = true) by (apply open_review_true_iff; auto).
    destruct (backend_generate_response_state _ _ _ _ _ _ _ Hg)
      as [Hcalls [Hclock [Hhandler [added [Hgen [Hadded [raw [p [_ [_ Hstrip]]]]]]]]]].
    destruct (backend_reply_to_review_state _ _ _ _ _ Hpost)
      as [Hclock2 [Hcalls2 [Hgen2 [Htrue Hfalse]]]].
    exists added, [], [(reviewId r, v)].
    rewrite Hopen, Hgen2, (Hfalse ltac:(discriminate)), Hcalls2, Hclock2,
      Hgen, Hhandler, Hcalls, Hclock, app_nil_r.
    repeat split; try reflexivity; try (cbn [length]; lia); try congruence.
    + apply sublist_nil_l.
    + repeat constructor; cbn [fst snd]; [exact Hv | |].
      * rewrite Hstrip. apply strip_idemp.
      * rewrite Hadded. left. reflexivity.
Qed.

(** What a backend batch adds. *)
Lemma backend_run_effects rs s ds s' :
  run self generator dry_run rs s ds s' ->
  exists added posted calls,
    generator_history (Effects.heap s') = generator_history (Effects.heap s) ++ added /\
    handler_history (Effects.heap s') = handler_history (Effects.heap s) ++ posted /\
    reply_calls s' = reply_calls s ++ calls /\
    clock s'
    = (clock s + length (List.filter open_review rs) * backend_model_calls generator
       + length calls)%nat /\
    (dry_run = true -> calls = []) /\
    map posted_pair posted = map detail_pair (List.filter is_posted ds) /\
    sublist (map posted_pair posted) calls /\
    sublist (map fst calls) (map reviewId (List.filter open_review rs)) /\
    Forall (fun c => snd c <> [] /\ strip (snd c) = snd c /\
                     In (fst c, snd c)
                        (map (fun e => (entry_review_id e, entry_response e)) added))
           calls /\
    map review_id ds = map reviewId rs.
Proof.
  induction 1 as [s | r rs s d s1 ds s2 Hstep Hrun IH].
  - exists [], [], []. rewrite !app_nil_r.
    repeat split; try reflexivity; try (cbn [length List.filter]; lia);
      try constructor.
  - destruct (backend_outcome_effects _ _ _ _ Hstep)
      as [a1 [p1 [c1 [Hg1 [Hh1 [Hc1 [Hk1 [Hd1 [Hp1 [Hs1 [Ho1 Hf1]]]]]]]]]]].
    destruct IH as [a2 [p2 [c2 [Hg2 [Hh2 [Hc2 [Hk2 [Hd2 [Hp2 [Hs2 [Ho2 [Hf2 Hids]]]]]]]]]]]].
    exists (a1 ++ a2), (p1 ++ p2), (c1 ++ c2).
    split; [rewrite Hg2, Hg1, app_assoc; reflexivity |].
    split; [rewrite Hh2, Hh1, app_assoc; reflexivity |].
    split; [rewrite Hc2, Hc1, app_assoc; reflexivity |].
    split.
    { rewrite Hk2, Hk1, length_app. cbn [List.filter].
      destruct (open_review r); cbn [length]; lia. }
    split.
    { intros Hdry. rewrite (Hd1 Hdry), (Hd2 Hdry). reflexivity. }
    split.
    { rewrite map_app, Hp1, Hp2. cbn [List.filter].
      destruct (is_posted d); reflexivity. }
    split; [rewrite map_app; apply sublist_app; assumption |].
    split.
    { rewrite map_app. cbn [List.filter].
      destruct (open_review r); cbn [map].
      - change (reviewId r :: map reviewId (List.filter open_review rs))
          with ([reviewId r] ++ map reviewId (List.filter open_review rs)).
        apply sublist_app; assumption.
      - apply sublist_nil_r in Ho1. rewrite Ho1. exact Ho2. }
    split.
    { apply Forall_app. split.
      - eapply Forall_impl; [exact Hf1 |].
        intros c [Hne [Hstrip Hin]]. split; [exact Hne |]. split; [exact Hstrip |].
        rewrite map_app. apply in_or_app. left. exact Hin.
      - eapply Forall_impl; [exact Hf2 |].
        intros c [Hne [Hstrip Hin]]. split; [exact Hne |]. split; [exact Hstrip |].
        rewrite map_app. apply in_or_app. right. exact Hin. }
    cbn [map]. rewrite Hids.
    rewrite (backend_outcome_review_id _ _ _ _ _ _ _ Hstep). reflexivity.
Qed.

(** The generator on a model that answers [raw]. *)
Lemma backend_generate_response_answer review_text rating review_id s raw :
  has_api_key generator = true ->
  (forall prompt, model_of generator (clock s) prompt = Ok raw) ->
  raw <> [] ->
  exists s1,
    generate_response generator review_text rating review_id s
    = (Ok (Some (strip raw)), s1).
Proof.
  intros Hkey Hraw Hne. run_monad. rewrite Hkey. cbn [negb]. rewrite Hraw.
  destruct raw as [|c raw]; [congruence |]. cbn [truthy].
  eexists. reflexivity.
Qed.

Variables (max_results : Z) (s : state heap).
Hypothesis Hgen : ai_generator self = Some generator.

Section Batch.
Variable rs : list review.
Hypothesis Hlist : reviews_list (service_of self) (clock s) max_results = Ok rs.

(** X15.  The handler's history of the backend records the replies that
    went through, and nothing else.  A run returns one entry per listed
    review, in listing order; the entries it appends to the handler's
    history are, in order, the review and the text of the entries with
    status ['posted'], each of them one of the reply calls made.  A
    preview appends none and makes no reply call. *)
Theorem backend_history_matches_posts :
  exists ds s' posted calls,
    auto_reply_to_reviews self max_results dry_run s = (Ok ds, s') /\
    map review_id ds = map reviewId rs /\
    handler_history (Effects.heap s') = handler_history (Effects.heap s) ++ posted /\
    reply_calls s' = reply_calls s ++ calls /\
    map posted_pair posted = map detail_pair (List.filter is_posted ds) /\
    sublist (map posted_pair posted) calls /\
    (dry_run = true -> posted = [] /\ calls = []).
Proof.
  destruct (backend_auto_reply_run self generator dry_run max_results rs s
              Hai Hgen Hlist) as [ds [s' [Hrun Heq]]].
  destruct (backend_run_effects _ _ _ _ Hrun)
    as [added [posted [calls [_ [Hh [Hc [_ [Hd [Hp [Hs [_ [_ Hids]]]]]]]]]]]].
  exists ds, s', posted, calls.
  split; [exact Heq |]. split; [exact Hids |].
  split; [exact Hh |]. split; [exact Hc |].
  split; [exact Hp |]. split; [exact Hs |].
  intros Hdry. specialize (Hd Hdry). subst calls. split; [| reflexivity].
  apply sublist_nil_r in Hs. destruct posted; [reflexivity | discriminate].
Qed.

(** X16.  The external calls of a backend run.  It makes one listing
    call, one model call for each listed review without a reply and with
    fewer than five stars (whatever its text, and none when no key is
    configured), and one store call per reply attempted; replies go to such
    reviews only, at most one each and in listing order, and the text of
    each is a response the generator wrote to its history in this run,
    trimmed and not empty. *)
Theorem backend_one_model_call_per_open_review :
  exists ds s' added calls,
    auto_reply_to_reviews self max_results dry_run s = (Ok ds, s') /\
    generator_history (Effects.heap s')
    = generator_history (Effects.heap s) ++ added /\
    reply_calls s' = reply_calls s ++ calls /\
    clock s'
    = (clock s + 1
       + length (List.filter open_review rs) * backend_model_calls generator
       + length calls)%nat /\
    sublist (map fst calls) (map reviewId (List.filter open_review rs)) /\
    Forall (fun c => snd c <> [] /\ strip (snd c) = snd c /\
                     In (fst c, snd c)
                        (map (fun e => (entry_review_id e, entry_response e)) added))
           calls.
Proof.
  destruct (backend_auto_reply_run self generator dry_run max_results rs s
              Hai Hgen Hlist) as [ds [s' [Hrun Heq]]].
  destruct (backend_run_effects _ _ _ _ Hrun)
    as [added [posted [calls [Hg [_ [Hc [Hk [_ [_ [_ [Ho [Hf _]]]]]]]]]]]].
  exists ds, s', added, calls.
  split; [exact Heq |]. split; [exact Hg |]. split; [exact Hc |].
  split; [rewrite Hk; cbn [listed clock]; lia |].
  split; [exact Ho | exact Hf].
Qed.

End Batch.

End Run.

Section Verbatim.
Variables (self : GooglePlayReviews) (generator : AIResponseGenerator).
Variables (max_results : Z) (s : state heap).
Variables (pre : list review) (r : review) (post : list review) (raw : pystr).
Hypothesis Hai : enable_ai self = true.
Hypothesis Hgen : ai_generator self = Some generator.
Hypothesis Hkey : has_api_key generator = true.
Hypothesis Hlist :
  reviews_list (service_of self) (clock s) max_results = Ok (pre ++ r :: post).
Hypothesis Hreply : hasReply r = false.
Hypothesis Hstars : (rating r < 5)%Z.
Hypothesis Hanswer :
  forall prompt,
    model_of generator (clock (state_before self generator false pre s)) prompt = Ok raw.
Hypothesis Hblank : strip raw <> [].

(** X17.  The backend sends what the model says.  In a live run, when the
    model answers the call made for a review without a reply and with
    fewer than five stars by a text that is not blank, the reply sent for
    this review is that text, trimmed: no length limit and no word list
    stands between the model and the store. *)
Theorem backend_posts_model_output_verbatim :
  exists ds s' later,
    auto_reply_to_reviews self max_results false s = (Ok ds, s') /\
    reply_calls s'
    = reply_calls (state_before self generator false pre s)
      ++ (reviewId r, strip raw) :: later.
Proof.
  destruct (backend_auto_reply_split self generator false max_results pre r post s
              Hai Hgen Hlist) as [ds_pre [d [s2 [ds_post [s' [_ [Hstep [Hpost Heq]]]]]]]].
  assert (Hne : raw <> []) by (intros ->; apply Hblank; reflexivity).
  destruct (backend_generate_response_answer generator (userComment r) (rating r)
              (reviewId r) _ raw Hkey Hanswer Hne) as [s1 Hg].
  destruct (backend_generate_response_state _ _ _ _ _ _ _ Hg) as [Hsame _].
  destruct (backend_run_effects self generator false Hai _ _ _ _ Hpost)
    as [_ [_ [calls [_ [_ [Hcalls _]]]]]].
  exists (ds_pre ++ d :: ds_post), s', calls. split; [exact Heq |].
  assert (Hsent : reply_calls s2
                  = reply_calls (state_before self generator false pre s)
                    ++ [(reviewId r, strip raw)]).
  { destruct Hstep as [ Hr | Hr H5 | o s1' Hr H5 Hg' Ho | v s1' Hr H5 Hg' Hv Hdry
                      | v s1' success s3 Hr H5 Hg' Hv Hdry Hp
                      | v s1' e s3 Hr H5 Hg' Hv Hdry Hp ];
      try congruence; try lia; try discriminate Hdry;
      rewrite Hg in Hg'; injection Hg' as <- <-.
    - destruct Ho as [Ho | Ho]; congruence.
    - destruct (backend_reply_to_review_state self Hai _ _ _ _ _ Hp)
        as [_ [Hc _]].
      rewrite Hc, Hsame. reflexivity.
    - destruct (backend_reply_to_review_state self Hai _ _ _ _ _ Hp)
        as [_ [Hc _]].
      rewrite Hc, Hsame. reflexivity. }
  rewrite Hcalls, Hsent, <- app_assoc. reflexivity.
Qed.

End Verbatim.

End WithRuntime.

#[local] Existing Instance Fixtures.plain_runtime.
Import Fixtures.

(** A live backend run on the mixed batch: the five-star review and the
    replied one are skipped, the two others are answered and recorded. *)
Lemma backend_history_matches_posts_witness :
  exists ds s' posted,
    auto_reply_to_reviews (backend_handler (store mixed_batch) polite_model) 5 false
                          backend_start = (Ok ds, s') /\
    handler_history (Effects.heap s') = posted /\
    map posted_pair posted = map detail_pair (List.filter is_posted ds).
Proof.
  destruct (backend_history_matches_posts
              (backend_handler (store mixed_batch) polite_model)
              (backend_generator polite_model) false eq_refl 5 backend_start
              eq_refl mixed_batch eq_refl)
    as [ds [s' [posted [calls [Heq [_ [Hh [_ [Hp _]]]]]]]]].
  exists ds, s', posted. split; [exact Heq |]. split; [exact Hh | exact Hp].
Defined.

(** The same run: one listing call, two model calls, two reply calls. *)
Lemma backend_one_model_call_per_open_review_witness :
  exists ds s' calls,
    auto_reply_to_reviews (backend_handler (store mixed_batch) polite_model) 5 false
                          backend_start = (Ok ds, s') /\
    reply_calls s' = calls /\
    clock s' = (0 + 1 + 2 * 1 + length calls)%nat.
Proof.
  destruct (backend_one_model_call_per_open_review
              (backend_handler (store mixed_batch) polite_model)
              (backend_generator polite_model) false eq_refl 5 backend_start
              eq_refl mixed_batch eq_refl)
    as [ds [s' [added [calls [Heq [_ [Hc [Hk _]]]]]]]].
  exists ds, s', calls. split; [exact Heq |]. split; [exact Hc | exact Hk].
Defined.

(** A model that apologises: the apology goes out as it is. *)
Lemma backend_posts_model_output_verbatim_witness :
  exists ds s' later,
    auto_reply_to_reviews (backend_handler (store [crash_review]) apology_model) 5 false
                          backend_start = (Ok ds, s') /\
    reply_calls s'
    = reply_calls (state_before (backend_handler (store [crash_review]) apology_model)
                                (backend_generator apology_model) false [] backend_start)
      ++ (reviewId crash_review,
          strip (py "Sorry for the inconvenience, we'll fix it soon")) :: later.
Proof.
  apply (backend_posts_model_output_verbatim
           (backend_handler (store [crash_review]) apology_model)
           (backend_generator apology_model) 5 backend_start
           [] crash_review [] (py "Sorry for the inconvenience, we'll fix it soon")
           eq_refl eq_refl eq_refl eq_refl eq_refl eq_refl (fun _ => eq_refl)).
  vm_compute. discriminate.
Defined.

End BackendAuditFacts.
